(** * WearOS connector (src/index.ts): a shallow embedding and its properties

    The script is sequential glue around an external [adb] executable.  The
    embedding keeps the structure of the source: every routine of
    [src/index.ts] is a computation in a small state-and-exception monad
    over a [World] (the two module-level variables [adbPath] and [debugLog]
    plus the chronological trace of everything the process did to the
    outside), and the outside itself (the Bun shell, the clock, the file
    system, the terminal, a few library functions) is an [Env] of oracles
    that answer as a function of the history so far.

    Conventions.
    - A JavaScript string is a [string]; its characters are read as code
      units below 256 (Latin-1), which covers every literal of the source.
    - [await] is sequencing: the script is single-threaded and every call is
      awaited, apart from [Bun.write], whose call is recorded when issued.
    - An external command or a prompt that never returns is outside the
      model: every oracle answers.  A prompt may fail, though: [rl.question]
      throws once standard input has ended. *)

From Stdlib Require Import String Ascii ZArith List Bool Arith Lia DecimalString.
Import ListNotations.
Open Scope string_scope.
Open Scope Z_scope.

Set Implicit Arguments.

(* ------------------------------------------------------------------ *)
(** ** JavaScript strings *)

Module JsString.

(** The line feed, ["\n"] in the source. *)
Definition LF : ascii := ascii_of_nat 10.
Definition nl : string := String LF EmptyString.

(** White space and line terminators removed by [String.prototype.trim],
    restricted to code units below 256: TAB, LF, VT, FF, CR, SP, NBSP. *)
Definition isWhiteSpace (c : ascii) : bool :=
  let n := nat_of_ascii c in
  (Nat.eqb n 9 || Nat.eqb n 10 || Nat.eqb n 11 || Nat.eqb n 12
   || Nat.eqb n 13 || Nat.eqb n 32 || Nat.eqb n 160)%bool.

Definition isEmpty (s : string) : bool :=
  match s with EmptyString => true | String _ _ => false end.

Fixpoint trimStart (s : string) : string :=
  match s with
  | EmptyString => EmptyString
  | String c r => if isWhiteSpace c then trimStart r else s
  end.

Fixpoint trimEnd (s : string) : string :=
  match s with
  | EmptyString => EmptyString
  | String c r =>
      let r' := trimEnd r in
      if (isWhiteSpace c && isEmpty r')%bool then EmptyString else String c r'
  end.

(** [s.trim()] *)
Definition trim (s : string) : string := trimEnd (trimStart s).

(** [s.split("\n")]: never empty, [""] splits into [[""]]. *)
Fixpoint splitLines (s : string) : list string :=
  match s with
  | EmptyString => [EmptyString]
  | String c r =>
      if Ascii.eqb c LF then EmptyString :: splitLines r
      else match splitLines r with
           | [] => [String c EmptyString]
           | h :: t => String c h :: t
           end
  end.

(** [s.includes(sub)] *)
Fixpoint includes (s sub : string) : bool :=
  (prefix sub s
   || match s with
      | EmptyString => false
      | String _ r => includes r sub
      end)%bool.

(** Decimal rendering of an integral JavaScript number in a template. *)
Definition ofZ (z : Z) : string := NilZero.string_of_int (Z.to_int z).

End JsString.
Import JsString.

(* ------------------------------------------------------------------ *)
(** ** JavaScript values that can be thrown and caught *)

Inductive JsValue : Type :=
| VUndefined
| VNull
| VBool (b : bool)
| VNum (z : Z)
| VStr (s : string)
| VError (name message : string)
    (* an [Error] object *)
| VShellError (exitCode : Z) (stdout stderr : string).
    (* Bun's [ShellError], thrown by the shell on a non-zero exit *)

Module Js.

(** Truthiness, as tested by [if (error)]. *)
Definition truthy (v : JsValue) : bool :=
  match v with
  | VUndefined | VNull => false
  | VBool b => b
  | VNum z => negb (z =? 0)
  | VStr s => negb (isEmpty s)
  | VError _ _ | VShellError _ _ _ => true
  end.

(** [e instanceof Error] *)
Definition instanceofError (v : JsValue) : bool :=
  match v with
  | VError _ _ | VShellError _ _ _ => true
  | _ => false
  end.

(** [e.message] of an [Error]. *)
Definition message (v : JsValue) : string :=
  match v with
  | VError _ m => m
  | VShellError c _ _ => "Failed with exit code " ++ ofZ c
  | _ => ""
  end.

(** [Error.prototype.toString] on a name and a message. *)
Definition errorToString (name msg : string) : string :=
  if isEmpty name then msg
  else if isEmpty msg then name
  else name ++ ": " ++ msg.

(** The string a value becomes inside a template literal, [`${v}`]. *)
Definition toString (v : JsValue) : string :=
  match v with
  | VUndefined => "undefined"
  | VNull => "null"
  | VBool true => "true"
  | VBool false => "false"
  | VNum z => ofZ z
  | VStr s => s
  | VError n m => errorToString n m
  | VShellError _ _ _ => errorToString "ShellError" (message v)
  end.

End Js.

(* ------------------------------------------------------------------ *)
(** ** Dates: [new Date().toISOString()] *)

Record DateTime : Type := mkDateTime {
  year : Z;
  month : nat;        (* 1..12 *)
  day : nat;          (* 1..31 *)
  hours : nat;
  minutes : nat;
  seconds : nat;
  milliseconds : nat
}.

Module Iso.

Definition digitChar (n : nat) : ascii := ascii_of_nat (48 + n mod 10).

(** The [k] low decimal digits of [n], most significant first. *)
Fixpoint padDigits (k n : nat) : string :=
  match k with
  | O => EmptyString
  | S k' => String (digitChar (n / 10 ^ k')) (padDigits k' n)
  end.

(** Years 0..9999 print with four digits, all others in the expanded form
    with a sign and six digits. *)
Definition yearPart (y : Z) : string :=
  if (0 <=? y) && (y <=? 9999) then padDigits 4 (Z.to_nat y)
  else (if y <? 0 then "-" else "+") ++ padDigits 6 (Z.to_nat (Z.abs y)).

Definition toISOString (d : DateTime) : string :=
  yearPart (year d) ++ "-" ++ padDigits 2 (month d) ++ "-" ++ padDigits 2 (day d)
  ++ "T" ++ padDigits 2 (hours d) ++ ":" ++ padDigits 2 (minutes d)
  ++ ":" ++ padDigits 2 (seconds d) ++ "." ++ padDigits 3 (milliseconds d) ++ "Z".

Definition isLeap (y : Z) : bool :=
  ((y mod 4 =? 0) && negb (y mod 100 =? 0) || (y mod 400 =? 0))%bool.

Definition daysInMonth (y : Z) (m : nat) : nat :=
  match m with
  | 2 => if isLeap y then 29 else 28
  | 4 | 6 | 9 | 11 => 30
  | _ => 31
  end%nat.

(** A reading of the clock that is a date of the proleptic Gregorian
    calendar within the range of a JavaScript [Date]. *)
Definition wellFormed (d : DateTime) : bool :=
  ((-271821 <=? year d) && (year d <=? 275760)
   && (1 <=? month d)%nat && (month d <=? 12)%nat
   && (1 <=? day d)%nat && (day d <=? daysInMonth (year d) (month d))%nat
   && (hours d <? 24)%nat && (minutes d <? 60)%nat && (seconds d <? 60)%nat
   && (milliseconds d <? 1000)%nat)%bool.

(** *** An independent reader of ISO-8601 date-times in UTC *)

Definition isDigit (c : ascii) : bool :=
  let n := nat_of_ascii c in ((48 <=? n) && (n <=? 57))%nat%bool.

Definition digitVal (c : ascii) : nat := nat_of_ascii c - 48.

(** Reads exactly [k] decimal digits. *)
Fixpoint readDigits (k : nat) (s : string) : option (nat * string) :=
  match k with
  | O => Some (O, s)
  | S k' =>
      match s with
      | EmptyString => None
      | String c r =>
          if isDigit c then
            match readDigits k' r with
            | Some (v, rest) => Some (digitVal c * 10 ^ k' + v, rest)%nat
            | None => None
            end
          else None
      end
  end.

Definition expect (c : ascii) (s : string) : option string :=
  match s with
  | String c' r => if Ascii.eqb c c' then Some r else None
  | EmptyString => None
  end.

Definition readYear (s : string) : option (Z * string) :=
  match s with
  | String c r =>
      if Ascii.eqb c "+" then
        match readDigits 6 r with
        | Some (v, rest) => Some (Z.of_nat v, rest)
        | None => None
        end
      else if Ascii.eqb c "-" then
        match readDigits 6 r with
        | Some (v, rest) => Some (- Z.of_nat v, rest)
        | None => None
        end
      else
        match readDigits 4 s with
        | Some (v, rest) => Some (Z.of_nat v, rest)
        | None => None
        end
  | EmptyString => None
  end.

Definition obind {A B} (o : option A) (f : A -> option B) : option B :=
  match o with Some a => f a | None => None end.

(** [YYYY-MM-DDTHH:mm:ss.sssZ] or [±YYYYYY-MM-DDTHH:mm:ss.sssZ], nothing
    after the [Z], every field in its calendar range. *)
Definition parseISO (s : string) : option DateTime :=
  obind (readYear s) (fun '(y, s) =>
  obind (expect "-" s) (fun s =>
  obind (readDigits 2 s) (fun '(mo, s) =>
  obind (expect "-" s) (fun s =>
  obind (readDigits 2 s) (fun '(d, s) =>
  obind (expect "T" s) (fun s =>
  obind (readDigits 2 s) (fun '(h, s) =>
  obind (expect ":" s) (fun s =>
  obind (readDigits 2 s) (fun '(mi, s) =>
  obind (expect ":" s) (fun s =>
  obind (readDigits 2 s) (fun '(se, s) =>
  obind (expect "." s) (fun s =>
  obind (readDigits 3 s) (fun '(ms, s) =>
  obind (expect "Z" s) (fun s =>
    let d := mkDateTime y mo d h mi se ms in
    if (isEmpty s && wellFormed d)%bool then Some d else None)))))))))))))).

Definition isISO8601 (s : string) : bool :=
  match parseISO s with Some _ => true | None => false end.

End Iso.


(* ------------------------------------------------------------------ *)
(** ** The outside of the process *)

(** Everything the process does to its environment, in the order it does
    it. *)
Inductive Event : Type :=
| EvShell (script : string)
    (* a script handed to the Bun shell *)
| EvLog (text : string)
    (* [console.log] of a string *)
| EvLogResult (out err : string) (code : Z)
    (* [console.log(result)] of a shell output object *)
| EvLogLines (lines : list string)
    (* [console.log(lines)] of an array of strings *)
| EvError (text : string)
    (* [console.error] *)
| EvWrite (path content : string) (mode : Z)
    (* [Bun.write(path, content, {mode})] *)
| EvStat (path : string)
    (* [Bun.file(path).size] *)
| EvNow
    (* [new Date()] *)
| EvQuestion (query : string)
    (* [rl.question] *)
| EvClose.
    (* [rl.close()] *)

(** What the shell layer reports for a script: the command ran and exited
    with a code, or the layer itself threw. *)
Inductive ShellOutcome : Type :=
| Exited (out err : string) (code : Z)
| Failed (v : JsValue).

(** What [rl.question] comes to: the line typed, or the error it throws when
    the interface has been closed (standard input has ended). *)
Inductive PromptOutcome : Type :=
| Answered (line : string)
| PromptFailed (v : JsValue).

(** The oracles.  Each answers from the history of the run, so that a
    device may for instance be listed only once it has been connected. *)
Record Env : Type := mkEnv {
  shell : list Event -> string -> ShellOutcome;
  clock : list Event -> DateTime;
  fileSize : list Event -> string -> Z;
  answer : list Event -> string -> PromptOutcome;
  homedir : string;                       (* [homedir()] of "os" *)
  join : string -> string -> string;      (* [join] of "path" *)
  ansi : string -> string;                (* [Bun.color(c, "ansi")], as concatenated *)
  jsonStringify : JsValue -> string       (* [JSON.stringify(e, null, 2)], as interpolated *)
}.

(** The module-level state of the script and the trace of the run. *)
Record World : Type := mkWorld {
  adbPath : JsValue;       (* [let adbPath: string | null] *)
  debugLog : string;       (* [let debugLog = ""] *)
  trace : list Event
}.

Definition initialWorld : World :=
  {| adbPath := VUndefined; debugLog := ""; trace := [] |}.

(** The object [execCommand] returns.  On the failure path the source stores
    the caught value itself in [stderr], hence a [JsValue]. *)
Record CommandResult : Type := mkResult {
  stdout : string;
  stderr : JsValue;
  exitCode : Z
}.

(** The shell output object of a completed command. *)
Record ShellOutput : Type := mkOutput {
  outStdout : string;
  outStderr : string;
  outExitCode : Z
}.

(* ------------------------------------------------------------------ *)
(** ** The monad of the script: state, exceptions, process exit *)

Inductive Outcome (A : Type) : Type :=
| Ret (a : A)
| Throw (v : JsValue)
| Exit (code : Z).
Arguments Throw {A} v.
Arguments Exit {A} code.

Definition M (A : Type) : Type := World -> Outcome A * World.

Definition ret {A} (a : A) : M A := fun w => (Ret a, w).

Definition bind {A B} (m : M A) (k : A -> M B) : M B :=
  fun w =>
    match m w with
    | (Ret a, w') => k a w'
    | (Throw v, w') => (Throw v, w')
    | (Exit c, w') => (Exit c, w')
    end.

(** [try { body } catch (e) { handler }]: only a thrown value is caught. *)
Definition tryCatch {A} (body : M A) (handler : JsValue -> M A) : M A :=
  fun w =>
    match body w with
    | (Throw v, w') => handler v w'
    | r => r
    end.

Declare Scope js_scope.
Delimit Scope js_scope with js.
Notation "x <- m ;; k" := (bind m (fun x => k))
  (at level 61, m at next level, right associativity) : js_scope.
Notation "m ;; k" := (bind m (fun _ => k))
  (at level 61, right associativity) : js_scope.
Open Scope js_scope.

Definition emit (e : Event) : M unit :=
  fun w => (Ret tt, {| adbPath := adbPath w; debugLog := debugLog w;
                       trace := trace w ++ [e] |}).

Definition getAdbPath : M JsValue := fun w => (Ret (adbPath w), w).

Definition setAdbPath (v : JsValue) : M unit :=
  fun w => (Ret tt, {| adbPath := v; debugLog := debugLog w; trace := trace w |}).

Definition getDebugLog : M string := fun w => (Ret (debugLog w), w).

Definition appendDebugLog (s : string) : M unit :=
  fun w => (Ret tt, {| adbPath := adbPath w; debugLog := debugLog w ++ s;
                       trace := trace w |}).

(** [process.exit(code)] *)
Definition processExit {A} (code : Z) : M A := fun w => (Exit code, w).

(** [string | null] as a value. *)
Definition ofNullable (o : option string) : JsValue :=
  match o with Some s => VStr s | None => VNull end.

Section Script.

Variable E : Env.

(** *** Primitives of the runtime *)

Definition consoleLog (text : string) : M unit := emit (EvLog text).
Definition consoleError (text : string) : M unit := emit (EvError text).
Definition consoleLogLines (lines : list string) : M unit := emit (EvLogLines lines).
Definition consoleLogResult (r : ShellOutput) : M unit :=
  emit (EvLogResult (outStdout r) (outStderr r) (outExitCode r)).

(** The Bun shell, [$`script`], throwing on a non-zero exit code: the
    default, and what [.throws(true)] asks for. *)
Definition dollar (script : string) : M ShellOutput :=
  fun w =>
    let w' := {| adbPath := adbPath w; debugLog := debugLog w;
                 trace := trace w ++ [EvShell script] |} in
    match shell E (trace w) script with
    | Exited out err code =>
        if code =? 0 then (Ret (mkOutput out err code), w')
        else (Throw (VShellError code out err), w')
    | Failed v => (Throw v, w')
    end.

(** [new Date()] *)
Definition newDate : M DateTime :=
  fun w => (Ret (clock E (trace w)),
            {| adbPath := adbPath w; debugLog := debugLog w;
               trace := trace w ++ [EvNow] |}).

(** [Bun.write(path, content, { mode })], not awaited by the source. *)
Definition bunWrite (path content : string) (mode : Z) : M unit :=
  emit (EvWrite path content mode).

(** [Bun.file(path).size] *)
Definition bunFileSize (path : string) : M Z :=
  fun w => (Ret (fileSize E (trace w) path),
            {| adbPath := adbPath w; debugLog := debugLog w;
               trace := trace w ++ [EvStat path] |}).

(** [question(query)]: [rl.question], resolved with the line typed; when
    [rl.question] throws, the promise is rejected and the [await] throws. *)
Definition question (query : string) : M string :=
  fun w =>
    let w' := {| adbPath := adbPath w; debugLog := debugLog w;
                 trace := trace w ++ [EvQuestion query] |} in
    match answer E (trace w) query with
    | Answered line => (Ret line, w')
    | PromptFailed v => (Throw v, w')
    end.

Definition rlClose : M unit := emit EvClose.

(** *** src/index.ts *)

(** [const fileExists = (path) => Bun.file(path).size > 0] *)
Definition fileExists (path : string) : M bool :=
  size <- bunFileSize path ;;
  ret (0 <? size).

(** The script text of the template around [{ raw: command }]. *)
Definition rawScript (command : string) : string :=
  nl ++ "    " ++ command ++ nl ++ "    ".

(** The [try] block of [execCommand]. *)
Definition execTry (command : string) : M CommandResult :=
  devices <- dollar "adb devices" ;;
  consoleLog (outStdout devices ++ " which adb") ;;
  result <- dollar (rawScript command) ;;
  consoleLogResult result ;;
  ret {| stdout := outStdout result;
         stderr := VStr (outStderr result);
         exitCode := outExitCode result |}.

(** The [catch (error)] block of [execCommand]. *)
Definition execCatch (error : JsValue) : M CommandResult :=
  if Js.truthy error then
    ret {| stdout := ""; stderr := error; exitCode := 1 |}
  else
    ret {| stdout := ""; stderr := VStr "Unknown error"; exitCode := 1 |}.

Definition execCommand (command : string) : M CommandResult :=
  tryCatch (execTry command) execCatch.

Definition colorText (text color : string) : string :=
  ansi E color ++ text ++ ansi E "reset".

Definition logFile : string := "wearos_connector_debug.log ".

Definition addToDebugLog (message : string) : M unit :=
  date <- newDate ;;
  let logMessage := Iso.toISOString date ++ ": " ++ message ++ nl in
  appendDebugLog logMessage ;;
  bunWrite logFile logMessage 511 ;;
  consoleLog message.

Definition commonPaths : list string :=
  [ "/usr/local/bin/adb";
    "/opt/homebrew/bin/adb";
    join E (homedir E) "Library/Android/sdk/platform-tools/adb";
    join E (homedir E) "Android/Sdk/platform-tools/adb";
    "/usr/bin/adb" ].

(** [for (const path of paths) { if (fileExists(path)) return path; }
    return null;] *)
Fixpoint firstExisting (paths : list string) : M (option string) :=
  match paths with
  | [] => ret None
  | path :: rest =>
      found <- fileExists path ;;
      if found then ret (Some path) else firstExisting rest
  end.

Definition findAdbPath : M (option string) :=
  tryCatch
    (r <- execCommand "which adb" ;;
     consoleLog (stdout r) ;;
     if ((exitCode r =? 0) && negb (isEmpty (trim (stdout r))))%bool
     then ret (Some (trim (stdout r)))
     else firstExisting commonPaths)
    (fun e =>
       addToDebugLog ("Error finding ADB path: " ++ Js.toString e) ;;
       ret None).

(** [stdout.split("\n").filter((line) => line.trim() !== "")] *)
Definition nonBlankLines (out : string) : list string :=
  filter (fun line => negb (String.eqb (trim line) "")) (splitLines out).

Definition isDeviceConnected : M bool :=
  tryCatch
    (r <- execCommand "adb devices" ;;
     addToDebugLog ("ADB devices output: " ++ stdout r) ;;
     let lines := nonBlankLines (stdout r) in
     consoleLogLines lines ;;
     ret ((exitCode r =? 0) && (1 <? length lines)%nat)%bool)
    (fun e =>
       addToDebugLog ("Error checking device connection: " ++ Js.toString e) ;;
       ret false).

Definition offlineHint : string :=
  "Device is offline. Please ensure it's connected and try again.".

(** The [try] block of [getInstalledApps]. *)
Definition installedAppsTry : M unit :=
  path <- getAdbPath ;;
  r <- execCommand (Js.toString path ++ " shell pm list packages") ;;
  if exitCode r =? 0 then
    consoleLog (colorText "Installed Apps:" "blue") ;;
    consoleLog (stdout r)
  else
    consoleError
      (colorText ("Failed to get installed apps: " ++ Js.toString (stderr r)) "red").

(** The [catch (e)] block of [getInstalledApps]. *)
Definition installedAppsCatch (e : JsValue) : M unit :=
  (if (Js.instanceofError e && includes (Js.message e) "device offline")%bool
   then consoleError (colorText offlineHint "yellow")
   else consoleError
          (colorText ("Error getting installed apps: " ++ Js.toString e) "red")) ;;
  addToDebugLog ("Exception details: " ++ Js.toString e).

Definition getInstalledApps : M unit :=
  tryCatch installedAppsTry installedAppsCatch.

(** The [try] block of [getStorageInfo]. *)
Definition storageInfoTry : M unit :=
  path <- getAdbPath ;;
  r <- execCommand (Js.toString path ++ " shell df") ;;
  if exitCode r =? 0 then
    consoleLog (colorText "Storage Info:" "blue") ;;
    consoleLog (stdout r)
  else
    consoleError
      (colorText ("Failed to get storage info: " ++ Js.toString (stderr r)) "red").

(** The [catch (e)] block of [getStorageInfo]. *)
Definition storageInfoCatch (e : JsValue) : M unit :=
  (if (Js.instanceofError e && includes (Js.message e) "device offline")%bool
   then consoleError (colorText offlineHint "yellow")
   else consoleError
          (colorText ("Error getting storage info: " ++ Js.toString e) "red")) ;;
  addToDebugLog ("Exception details: " ++ Js.toString e).

Definition getStorageInfo : M unit :=
  tryCatch storageInfoTry storageInfoCatch.

Definition connectCommand (ipAddress port : string) : string :=
  "adb connect " ++ ipAddress ++ ":" ++ port.

Definition connectDevice (ipAddress port : string) : M unit :=
  tryCatch
    (let command := connectCommand ipAddress port in
     addToDebugLog ("Connecting device with command: " ++ command) ;;
     r <- execCommand command ;;
     addToDebugLog ("Connect stdout: " ++ stdout r) ;;
     addToDebugLog ("Connect stderr: " ++ Js.toString (stderr r)) ;;
     addToDebugLog ("Connect exit code: " ++ ofZ (exitCode r)) ;;
     if exitCode r =? 0 then
       consoleLog (colorText "Device connected successfully" "green") ;;
       getInstalledApps ;;
       getStorageInfo
     else
       consoleError (colorText ("Connection failed: " ++ Js.toString (stderr r)) "red"))
    (fun e =>
       consoleError (colorText ("Error connecting device: " ++ Js.toString e) "red") ;;
       addToDebugLog ("Exception details: " ++ Js.toString e)).

Definition pairCommand (ipAddress port pairCode : string) : string :=
  "adb pair " ++ ipAddress ++ ":" ++ port ++ " " ++ pairCode.

Definition pairDevice (ipAddress port pairCode : string) : M unit :=
  tryCatch
    (addToDebugLog "Attempting to pair device..." ;;
     let command := pairCommand ipAddress port pairCode in
     addToDebugLog ("Command: " ++ command) ;;
     r <- execCommand command ;;
     addToDebugLog ("Stdout: " ++ stdout r) ;;
     addToDebugLog ("Stderr: " ++ Js.toString (stderr r)) ;;
     addToDebugLog ("Exit code: " ++ ofZ (exitCode r)) ;;
     if exitCode r =? 0 then
       consoleLog (colorText "Device paired successfully" "green") ;;
       connectDevice ipAddress port
     else
       consoleError (colorText ("Pairing failed: " ++ Js.toString (stderr r)) "red"))
    (fun e =>
       consoleError (colorText ("Error pairing device: " ++ Js.toString e) "red") ;;
       addToDebugLog ("Exception details: " ++ jsonStringify E e)).

Definition savedNotice : string :=
  nl ++ "Full debug log has been saved to wearos_connector_debug.log".

(** The part of [main] after the tool has been located, from
    [const isConnected = await isDeviceConnected()] to [rl.close()]. *)
Definition mainAfterLocate : M unit :=
  isConnected <- isDeviceConnected ;;
  (if isConnected : bool then
     consoleLog (colorText "A device is already connected." "green") ;;
     getInstalledApps ;;
     getStorageInfo
   else
     consoleLog (colorText "No device connected. Let's connect one." "yellow") ;;
     ipAddress <- question "Enter IP Address: " ;;
     port <- question "Enter Port: " ;;
     pairCode <- question "Enter Pair Code: " ;;
     pairDevice ipAddress port pairCode ;;
     connectDevice ipAddress port) ;;
  consoleLog (colorText (nl ++ "Debug Log:") "magenta") ;;
  log <- getDebugLog ;;
  consoleLog log ;;
  consoleLog (colorText savedNotice "yellow") ;;
  rlClose.

Definition main : M unit :=
  consoleLog (colorText "WearOS Connector" "cyan") ;;
  located <- findAdbPath ;;
  setAdbPath (ofNullable located) ;;
  path <- getAdbPath ;;
  (if negb (Js.truthy path) then
     consoleError
       (colorText "ADB not found. Please install it and add it to your PATH." "red") ;;
     processExit 1
   else ret tt) ;;
  path <- getAdbPath ;;
  consoleLog (colorText ("ADB found at: " ++ Js.toString path) "green") ;;
  mainAfterLocate.

End Script.

(* ------------------------------------------------------------------ *)
(** ** Observations on traces *)

(** The scripts handed to the shell, in order. *)
Fixpoint scripts (t : list Event) : list string :=
  match t with
  | [] => []
  | EvShell s :: r => s :: scripts r
  | _ :: r => scripts r
  end.

(** The strings written with [console.log], in order. *)
Fixpoint logged (t : list Event) : list string :=
  match t with
  | [] => []
  | EvLog s :: r => s :: logged r
  | _ :: r => logged r
  end.

(** The strings written with [console.error], in order. *)
Fixpoint errors (t : list Event) : list string :=
  match t with
  | [] => []
  | EvError s :: r => s :: errors r
  | _ :: r => errors r
  end.

(** The paths whose size was asked for, in order. *)
Fixpoint probed (t : list Event) : list string :=
  match t with
  | [] => []
  | EvStat p :: r => p :: probed r
  | _ :: r => probed r
  end.

(** The scripts a computation hands to the shell when run from [w]. *)
Definition issued {A} (m : M A) (w : World) : list string :=
  scripts (skipn (length (trace w)) (trace (snd (m w)))).

(* ------------------------------------------------------------------ *)
(** ** A sample environment, for concrete runs *)

Module Sample.

Definition noon : DateTime := mkDateTime 2024 1 15 12 0 0 0.

Definition answers (query : string) : string :=
  if String.eqb query "Enter IP Address: " then "192.168.1.20"
  else if String.eqb query "Enter Port: " then "5555"
  else "123456".

(** An environment with the given shell and file sizes; colours are shown
    as [<name>], paths are joined with a single slash. *)
Definition env (sh : list Event -> string -> ShellOutcome) (size : string -> Z) : Env :=
  {| shell := sh;
     clock := fun _ => noon;
     fileSize := fun _ p => size p;
     answer := fun _ q => Answered (answers q);
     homedir := "/home/user";
     join := fun a b => a ++ "/" ++ b;
     ansi := fun c => "<" ++ c ++ ">";
     jsonStringify := fun _ => "{}" |}.

Definition header : string := "List of devices attached" ++ nl.

(** A shell where [adb] is on the PATH and no device is attached: pairing
    and every command addressed to a device fail. *)
Definition shNoDevice (_ : list Event) (script : string) : ShellOutcome :=
  if String.eqb script "adb devices" then Exited header "" 0
  else if String.eqb script (nl ++ "    which adb" ++ nl ++ "    ")
       then Exited ("/usr/bin/adb" ++ nl) "" 0
  else if String.eqb script (nl ++ "    adb devices" ++ nl ++ "    ")
       then Exited header "" 0
  else if prefix (nl ++ "    adb pair ") script
       then Exited "" ("error: protocol fault" ++ nl) 1
  else if prefix (nl ++ "    adb connect ") script
       then Exited ("failed to connect" ++ nl) "" 1
  else Failed (VError "Error" "error: device offline").

(** A shell where every command exits 0, the requested one after writing a
    notice to its standard error. *)
Definition shNoisy (_ : list Event) (script : string) : ShellOutcome :=
  if String.eqb script "adb devices" then Exited header "" 0
  else Exited header ("* daemon started successfully" ++ nl) 0.

(** A shell where the device is listed but offline: every command addressed
    to it writes the complaint of [adb] to standard error and exits 1. *)
Definition shOffline (_ : list Event) (script : string) : ShellOutcome :=
  if String.eqb script "adb devices"
  then Exited (header ++ "192.168.1.20:5555" ++ " offline" ++ nl) "" 0
  else Exited "" ("error: device offline" ++ nl) 1.

(** A world in which the tool has been located. *)
Definition located : World :=
  {| adbPath := VStr "/usr/bin/adb"; debugLog := ""; trace := [] |}.

(** A shell without [adb]: every script fails to start. *)
Definition shMissing (_ : list Event) (_ : string) : ShellOutcome :=
  Failed (VError "Error" "adb: command not found").

Definition noFiles (_ : string) : Z := 0.

Definition onlyUsrBin (p : string) : Z :=
  if String.eqb p "/usr/bin/adb" then 4096 else 0.

End Sample.

(* ------------------------------------------------------------------ *)
(** ** Spec-side definitions, compared with the code below *)

(** The number of lines of [s] (maximal runs without a line feed) that hold
    a character other than white space, counted in one pass; [seen] tells
    whether the line being read already holds one. *)
Fixpoint countFrom (seen : bool) (s : string) : nat :=
  match s with
  | EmptyString => if seen then 1 else 0
  | String c r =>
      if Ascii.eqb c LF then ((if seen then 1 else 0) + countFrom false r)%nat
      else countFrom (seen || negb (isWhiteSpace c)) r
  end.

Definition countNonBlankLines (s : string) : nat := countFrom false s.

(** A string made of white space only. *)
Fixpoint allWhite (s : string) : bool :=
  match s with
  | EmptyString => true
  | String c r => (isWhiteSpace c && allWhite r)%bool
  end.

(** The size reported for the [i]-th path of [paths] when the paths are
    probed in order starting from history [t]. *)
Definition sizeWhenProbed (E : Env) (t : list Event) (paths : list string) (i : nat) : Z :=
  fileSize E (t ++ map EvStat (firstn i paths)) (nth i paths "").

(** The first path of the list whose size is greater than zero, if any. *)
Definition firstWithSize (E : Env) (t : list Event) (paths : list string) : option string :=
  match find (fun i => 0 <? sizeWhenProbed E t paths i) (seq 0 (length paths)) with
  | Some i => Some (nth i paths "")
  | None => None
  end.

(** One entry of the debug log. *)
Definition logLine (stamp message : string) : string :=
  stamp ++ ": " ++ message ++ nl.

(** The path announced by the last message of [main]. *)
Definition announcedLogFile : string := "wearos_connector_debug.log".

(** What [execCommand] answers after catching [e]. *)
Definition caught (e : JsValue) : CommandResult :=
  {| stdout := "";
     stderr := if Js.truthy e then e else VStr "Unknown error";
     exitCode := 1 |}.

(** The claim that a command exiting 0 yields an empty [stderr] field, as
    the specification words it. *)
Definition exit0_gives_empty_stderr : Prop :=
  forall (E : Env) (command : string) (w : World) (o0 e0 out err : string),
    shell E (trace w) "adb devices" = Exited o0 e0 0 ->
    shell E (trace w ++ [EvShell "adb devices"; EvLog (o0 ++ " which adb")])
          (rawScript command) = Exited out err 0 ->
    exists r w', execCommand E command w = (Ret r, w')
                 /\ exitCode r = 0 /\ stderr r = VStr "".

(** [w] with its trace replaced. *)
Definition withTrace (w : World) (t : list Event) : World :=
  {| adbPath := adbPath w; debugLog := debugLog w; trace := t |}.

(** A computation that always returns normally and only adds to the
    trace: it neither throws nor ends the process. *)
Definition tame {A} (m : M A) : Prop :=
  forall w, exists a w' new,
    m w = (Ret a, w') /\ trace w' = (trace w ++ new)%list.

(** The scripts one call of the executor hands to the shell from history
    [t]: always the diagnostic, then the requested command if the diagnostic
    exited 0. *)
Definition execScripts (E : Env) (t : list Event) (command : string) : list string :=
  "adb devices" ::
  match shell E t "adb devices" with
  | Exited _ _ c => if c =? 0 then [rawScript command] else []
  | Failed _ => []
  end.

(** A debug log made of the given (time stamp, message) entries. *)
Fixpoint renderLog (entries : list (string * string)) : string :=
  match entries with
  | [] => ""
  | (stamp, message) :: rest => logLine stamp message ++ renderLog rest
  end.

(** The world in which [main] calls the tool locator. *)
Definition afterBanner (E : Env) (w : World) : World :=
  snd (consoleLog (colorText E "WearOS Connector" "cyan") w).

(** The last four things [main] does: the heading, the debug log, the
    notice, closing the prompt. *)
Definition closingEvents (E : Env) (log : string) : list Event :=
  [ EvLog (colorText E (nl ++ "Debug Log:") "magenta");
    EvLog log;
    EvLog (colorText E savedNotice "yellow");
    EvClose ].

(** Running [addToDebugLog] on each message in turn. *)
Fixpoint logAll (E : Env) (messages : list string) : M unit :=
  match messages with
  | [] => ret tt
  | m :: rest => addToDebugLog E m ;; logAll E rest
  end.

(* ------------------------------------------------------------------ *)
(** ** Further observations, for the properties of whole routines *)

(** The prompts shown, in order. *)
Fixpoint questions (t : list Event) : list string :=
  match t with
  | [] => []
  | EvQuestion q :: r => q :: questions r
  | _ :: r => questions r
  end.

(** Everything handed to [Bun.write], in order, concatenated. *)
Fixpoint written (t : list Event) : string :=
  match t with
  | [] => ""
  | EvWrite _ content _ :: r => content ++ written r
  | _ :: r => written r
  end.

(** An event that writes no file other than the log file, with mode
    [0o777]. *)
Definition writesLogFile (e : Event) : Prop :=
  match e with
  | EvWrite path _ mode => path = logFile /\ mode = 511
  | _ => True
  end.

(** What the routines below [main] may do: as above, and neither prompt nor
    close the prompt. *)
Definition routineEvent (e : Event) : Prop :=
  match e with
  | EvWrite path _ mode => path = logFile /\ mode = 511
  | EvQuestion _ | EvClose => False
  | _ => True
  end.

(** A computation that, however it ends, only adds events satisfying [P] to
    the trace, adds to the debug log exactly what it writes to files, and,
    when [fixPath] is set, leaves [adbPath] as it was. *)
Definition orderly (P : Event -> Prop) (fixPath : bool) {A} (m : M A) : Prop :=
  forall w, exists new,
    trace (snd (m w)) = (trace w ++ new)%list
    /\ debugLog (snd (m w)) = debugLog w ++ written new
    /\ (fixPath = true -> adbPath (snd (m w)) = adbPath w)
    /\ Forall P new.

(** The four statements of [main] that ask for the connection parameters,
    from the notice that no device is connected to the third prompt. *)
Definition askConnection (E : Env) : M (string * string * string) :=
  consoleLog (colorText E "No device connected. Let's connect one." "yellow") ;;
  ipAddress <- question E "Enter IP Address: " ;;
  port <- question E "Enter Port: " ;;
  pairCode <- question E "Enter Pair Code: " ;;
  ret (ipAddress, port, pairCode).

(** The world in which the pair routine calls the executor. *)
Definition beforePairCommand (E : Env) (ipAddress port pairCode : string)
    (w : World) : World :=
  snd (addToDebugLog E ("Command: " ++ pairCommand ipAddress port pairCode)
         (snd (addToDebugLog E "Attempting to pair device..." w))).

(** The world in which the connect routine calls the executor. *)
Definition beforeConnectCommand (E : Env) (ipAddress port : string)
    (w : World) : World :=
  snd (addToDebugLog E
         ("Connecting device with command: " ++ connectCommand ipAddress port) w).

(** The world after the pair routine has logged the three fields of the
    executor's answer [r], starting from [w]. *)
Definition afterPairLogs (E : Env) (r : CommandResult) (w : World) : World :=
  snd (addToDebugLog E ("Exit code: " ++ ofZ (exitCode r))
         (snd (addToDebugLog E ("Stderr: " ++ Js.toString (stderr r))
                 (snd (addToDebugLog E ("Stdout: " ++ stdout r) w))))).

(** The same for the connect routine. *)
Definition afterConnectLogs (E : Env) (r : CommandResult) (w : World) : World :=
  snd (addToDebugLog E ("Connect exit code: " ++ ofZ (exitCode r))
         (snd (addToDebugLog E ("Connect stderr: " ++ Js.toString (stderr r))
                 (snd (addToDebugLog E ("Connect stdout: " ++ stdout r) w))))).

(** [w] after one more event. *)
Definition andThen (w : World) (e : Event) : World :=
  withTrace w (trace w ++ [e]).

(** A string without a line feed. *)
Fixpoint singleLine (s : string) : bool :=
  match s with
  | EmptyString => true
  | String c r => (negb (Ascii.eqb c LF) && singleLine r)%bool
  end.

Module Scenario.

(** A shell where every command succeeds: pairing, connecting and the two
    listings all exit 0. *)
Definition shPairs (_ : list Event) (script : string) : ShellOutcome :=
  if String.eqb script "adb devices" then Exited Sample.header "" 0
  else if prefix (nl ++ "    adb pair ") script
       then Exited ("Successfully paired to 192.168.1.20:5555" ++ nl) "" 0
  else if prefix (nl ++ "    adb connect ") script
       then Exited ("connected to 192.168.1.20:5555" ++ nl) "" 0
  else Exited Sample.header "" 0.

(** A shell whose device list shows one device with the given status. *)
Definition shListed (status : string) (_ : list Event) (script : string)
    : ShellOutcome :=
  Exited ("List of devices attached" ++ nl ++ ("emulator-5554 " ++ status) ++ nl) "" 0.

(** A shell where [adb devices] exits 1 while [which adb] would succeed. *)
Definition shNoDaemon (_ : list Event) (script : string) : ShellOutcome :=
  if String.eqb script "adb devices"
  then Exited "" ("cannot connect to daemon" ++ nl) 1
  else Exited ("/usr/bin/adb" ++ nl) "" 0.

(** The same environment once standard input has ended: every prompt fails
    with the error of a closed [readline] interface. *)
Definition closedStdin (E : Env) : Env :=
  {| shell := shell E;
     clock := clock E;
     fileSize := fileSize E;
     answer := fun _ _ => PromptFailed (VError "Error" "readline was closed");
     homedir := homedir E;
     join := join E;
     ansi := ansi E;
     jsonStringify := jsonStringify E |}.

End Scenario.

(** An environment in which every prompt is answered. *)
Definition promptsAnswered (E : Env) : Prop :=
  forall t query v, answer E t query <> PromptFailed v.

(** [main] throws [v], a value that one of its prompts threw. *)
Definition rethrowsPrompt (E : Env) (w : World) (v : JsValue) : Prop :=
  fst (main E w) = Throw v
  /\ exists t query, answer E t query = PromptFailed v.


(** The three prompts of [main], in order. *)
Definition prompts : list string :=
  ["Enter IP Address: "; "Enter Port: "; "Enter Pair Code: "].

(* ------------------------------------------------------------------ *)
(** ** Strings and lists: basic facts *)

Lemma string_app_assoc (a b c : string) : (a ++ b) ++ c = a ++ b ++ c.
Proof.
  induction a as [|x a IH]; simpl; [reflexivity | now rewrite IH].
Qed.

Lemma string_app_nil_r (a : string) : a ++ "" = a.
Proof.
  induction a as [|x a IH]; simpl; [reflexivity | now rewrite IH].
Qed.

Lemma isEmpty_true (s : string) : isEmpty s = true <-> s = "".
Proof. destruct s; simpl; split; congruence. Qed.

Lemma isEmpty_eqb (s : string) : isEmpty s = String.eqb s "".
Proof. destruct s; reflexivity. Qed.

Lemma scripts_app (a b : list Event) : scripts (a ++ b) = (scripts a ++ scripts b)%list.
Proof.
  induction a as [|e a IH]; simpl; [reflexivity|].
  destruct e; simpl; now rewrite IH.
Qed.

Lemma logged_app (a b : list Event) : logged (a ++ b) = (logged a ++ logged b)%list.
Proof.
  induction a as [|e a IH]; simpl; [reflexivity|].
  destruct e; simpl; now rewrite IH.
Qed.

Lemma probed_app (a b : list Event) : probed (a ++ b) = (probed a ++ probed b)%list.
Proof.
  induction a as [|e a IH]; simpl; [reflexivity|].
  destruct e; simpl; now rewrite IH.
Qed.

Lemma skipn_length_app {A} (a b : list A) : skipn (length a) (a ++ b) = b.
Proof. induction a; simpl; auto. Qed.

(* ------------------------------------------------------------------ *)
(** ** The command executor *)

Section Executor.

Variable E : Env.

(** The executor, case by case on what the shell reports: first for the
    diagnostic [adb devices], then for the requested command. *)
Lemma execCommand_cases (command : string) (w : World) :
  execCommand E command w =
  match shell E (trace w) "adb devices" with
  | Exited o0 e0 c0 =>
      if c0 =? 0 then
        let t1 := (trace w ++ [EvShell "adb devices"; EvLog (o0 ++ " which adb")%string])%list in
        match shell E t1 (rawScript command) with
        | Exited out err code =>
            if code =? 0 then
              (Ret (mkResult out (VStr err) code),
               withTrace w (t1 ++ [EvShell (rawScript command); EvLogResult out err code]))
            else
              (Ret (caught (VShellError code out err)),
               withTrace w (t1 ++ [EvShell (rawScript command)]))
        | Failed v =>
            (Ret (caught v), withTrace w (t1 ++ [EvShell (rawScript command)]))
        end
      else
        (Ret (caught (VShellError c0 o0 e0)),
         withTrace w (trace w ++ [EvShell "adb devices"]))
  | Failed v =>
      (Ret (caught v), withTrace w (trace w ++ [EvShell "adb devices"]))
  end.
Proof.
  unfold execCommand, tryCatch, execTry, bind, dollar, consoleLog,
    consoleLogResult, emit, ret, execCatch, caught, withTrace.
  destruct (shell E (trace w) "adb devices") as [o0 e0 c0|v]; simpl.
  - destruct (c0 =? 0); simpl.
    + rewrite <- !app_assoc; simpl.
      destruct (shell E _ (rawScript command)) as [out err code|v]; simpl.
      * destruct (code =? 0); simpl.
        -- now rewrite <- !app_assoc.
        -- now rewrite <- ?app_assoc.
      * destruct (Js.truthy v); now rewrite <- ?app_assoc.
    + reflexivity.
  - destruct (Js.truthy v); reflexivity.
Qed.

(** The executor always returns, leaves the module state alone and only
    adds to the trace. *)
Lemma execCommand_returns (command : string) (w : World) :
  exists r new, execCommand E command w = (Ret r, withTrace w (trace w ++ new)).
Proof.
  rewrite execCommand_cases.
  destruct (shell E (trace w) "adb devices") as [o0 e0 c0|v].
  - destruct (c0 =? 0); cbv zeta.
    + destruct (shell E _ (rawScript command)) as [out err code|v].
      * destruct (code =? 0); rewrite <- app_assoc; eauto.
      * rewrite <- app_assoc; eauto.
    + eauto.
  - eauto.
Qed.


End Executor.

(** C6. Every value thrown while the executor's [try] block runs is caught:
    the executor returns normally, never throws to its caller, and its
    result has an empty [stdout], exit code 1 and in [stderr] the caught
    error, or ["Unknown error"] when the caught value is falsy. *)
Theorem execCommand_catches_every_error (E : Env) (command : string) (w : World) :
  (exists r w', execCommand E command w = (Ret r, w')) /\
  (forall e w', execTry E command w = (Throw e, w') ->
     execCommand E command w =
     (Ret {| stdout := "";
             stderr := if Js.truthy e then e else VStr "Unknown error";
             exitCode := 1 |}, w')).
Proof.
  split.
  - destruct (execCommand_returns E command w) as (r & new & H). eauto.
  - intros e w' H. unfold execCommand, tryCatch. rewrite H.
    unfold execCatch, ret. destruct (Js.truthy e); reflexivity.
Qed.

Lemma execCommand_catches_every_error_witness :
  let E := Sample.env Sample.shNoDevice Sample.noFiles in
  let e := VShellError 1 "" ("error: protocol fault" ++ nl) in
  execTry E "adb pair 10.0.0.7:5555 123456" initialWorld
  = (Throw e, snd (execTry E "adb pair 10.0.0.7:5555 123456" initialWorld))
  /\ execCommand E "adb pair 10.0.0.7:5555 123456" initialWorld
     = (Ret {| stdout := ""; stderr := e; exitCode := 1 |},
        snd (execTry E "adb pair 10.0.0.7:5555 123456" initialWorld)).
Proof.
  split.
  - reflexivity.
  - exact (proj2 (execCommand_catches_every_error
                    (Sample.env Sample.shNoDevice Sample.noFiles)
                    "adb pair 10.0.0.7:5555 123456" initialWorld)
                 (VShellError 1 "" ("error: protocol fault" ++ nl)) _ eq_refl).
Defined.

(** C2, as amended. When the diagnostic [adb devices] and then the requested
    command both complete with exit code 0, the executor returns exit code 0
    together with the command's captured standard output and its captured
    standard error, whatever the latter holds. *)
Theorem execCommand_exit0 (E : Env) (command : string) (w : World)
    (o0 e0 out err : string) :
  shell E (trace w) "adb devices" = Exited o0 e0 0 ->
  shell E (trace w ++ [EvShell "adb devices"; EvLog (o0 ++ " which adb")])
        (rawScript command) = Exited out err 0 ->
  exists w', execCommand E command w
             = (Ret {| stdout := out; stderr := VStr err; exitCode := 0 |}, w').
Proof.
  intros H0 H1. rewrite execCommand_cases, H0.
  change (0 =? 0) with true. cbv beta iota zeta. rewrite H1.
  change (0 =? 0) with true. cbv beta iota. eauto.
Qed.

Lemma execCommand_exit0_witness :
  exists w', execCommand (Sample.env Sample.shNoisy Sample.noFiles)
                         "adb devices" initialWorld
             = (Ret {| stdout := Sample.header;
                       stderr := VStr ("* daemon started successfully" ++ nl);
                       exitCode := 0 |}, w').
Proof.
  apply (@execCommand_exit0 (Sample.env Sample.shNoisy Sample.noFiles)
           "adb devices" initialWorld Sample.header "" Sample.header
           ("* daemon started successfully" ++ nl)); reflexivity.
Defined.

(** C2, as stated, fails: a command may exit 0 after writing to its standard
    error, and the executor hands that text back in [stderr]. *)
Lemma exit0_gives_empty_stderr_fails : ~ exit0_gives_empty_stderr.
Proof.
  intros H.
  destruct (H (Sample.env Sample.shNoisy Sample.noFiles) "adb devices" initialWorld
              Sample.header "" Sample.header ("* daemon started successfully" ++ nl)
              eq_refl eq_refl) as (r & w' & Hr & _ & Herr).
  vm_compute in Hr. inversion Hr; subst. discriminate Herr.
Qed.

(* ------------------------------------------------------------------ *)
(** ** Blank lines *)

Lemma trimStart_empty (s : string) : isEmpty (trimStart s) = allWhite s.
Proof.
  induction s as [|c r IH]; simpl; [reflexivity|].
  destruct (isWhiteSpace c); simpl; auto.
Qed.

Lemma trimEnd_empty (s : string) : isEmpty (trimEnd s) = allWhite s.
Proof.
  induction s as [|c r IH]; simpl; [reflexivity|].
  rewrite IH. destruct (isWhiteSpace c), (allWhite r); reflexivity.
Qed.

Lemma trimStart_allWhite (s : string) : allWhite (trimStart s) = allWhite s.
Proof.
  induction s as [|c r IH]; simpl; [reflexivity|].
  destruct (isWhiteSpace c) eqn:Hc; simpl; [assumption|].
  now rewrite Hc.
Qed.

(** A line is dropped by the filter exactly when it is white space only. *)
Lemma trim_empty (s : string) : String.eqb (trim s) "" = allWhite s.
Proof.
  unfold trim. now rewrite <- isEmpty_eqb, trimEnd_empty, trimStart_allWhite.
Qed.

Lemma splitLines_nonempty (s : string) : splitLines s <> [].
Proof.
  induction s as [|c r IH]; simpl; [discriminate|].
  destruct (Ascii.eqb c LF); [discriminate|].
  destruct (splitLines r); [contradiction | discriminate].
Qed.

Lemma splitLines_count (s : string) (seen : bool) :
  countFrom seen s =
  match splitLines s with
  | [] => 0%nat
  | h :: t =>
      ((if (seen || negb (allWhite h))%bool then 1 else 0)
       + length (filter (fun line => negb (String.eqb (trim line) "")) t))%nat
  end.
Proof.
  revert seen. induction s as [|c r IH]; intros seen; simpl.
  - now rewrite orb_false_r.
  - destruct (Ascii.eqb c LF) eqn:Hc.
    + rewrite (IH false). simpl. rewrite orb_false_r.
      destruct (splitLines r) as [|h t]; [reflexivity|].
      simpl. rewrite trim_empty.
      destruct (allWhite h); simpl; reflexivity.
    + rewrite (IH (seen || negb (isWhiteSpace c))%bool).
      pose proof (splitLines_nonempty r) as Hne.
      destruct (splitLines r) as [|h t]; [contradiction|]. simpl.
      destruct seen, (isWhiteSpace c), (allWhite h); reflexivity.
Qed.

(** The code's [split], [filter] and [length] count the non-blank lines. *)
Lemma nonBlankLines_length (out : string) :
  length (nonBlankLines out) = countNonBlankLines out.
Proof.
  unfold nonBlankLines, countNonBlankLines. rewrite splitLines_count.
  destruct (splitLines out) as [|h t]; [reflexivity|].
  simpl. rewrite trim_empty. destruct (allWhite h); reflexivity.
Qed.

(* ------------------------------------------------------------------ *)
(** ** ISO-8601: what [toISOString] prints, the reader reads back *)

Module IsoFacts.
Import Iso.

Lemma nat_of_digitChar (n : nat) : nat_of_ascii (digitChar n) = (48 + n mod 10)%nat.
Proof.
  unfold digitChar. apply nat_ascii_embedding.
  pose proof (Nat.mod_upper_bound n 10). lia.
Qed.

Lemma isDigit_digitChar (n : nat) : isDigit (digitChar n) = true.
Proof.
  unfold isDigit. rewrite nat_of_digitChar.
  pose proof (Nat.mod_upper_bound n 10 ltac:(lia)).
  apply andb_true_intro; split; apply Nat.leb_le; lia.
Qed.

Lemma digitVal_digitChar (n : nat) : digitVal (digitChar n) = (n mod 10)%nat.
Proof. unfold digitVal. rewrite nat_of_digitChar. lia. Qed.

Lemma digitChar_not (n : nat) (c : ascii) :
  (nat_of_ascii c < 48)%nat -> Ascii.eqb (digitChar n) c = false.
Proof.
  intros H. apply Ascii.eqb_neq. intros <-.
  rewrite nat_of_digitChar in H. lia.
Qed.

Lemma mod_pow_succ (n k : nat) :
  (n mod 10 ^ S k = (n / 10 ^ k) mod 10 * 10 ^ k + n mod 10 ^ k)%nat.
Proof.
  replace (10 ^ S k)%nat with (10 ^ k * 10)%nat by (simpl; lia).
  rewrite Nat.Div0.mod_mul_r. lia.
Qed.

Lemma readDigits_padDigits (k n : nat) (rest : string) :
  readDigits k (padDigits k n ++ rest) = Some ((n mod 10 ^ k)%nat, rest).
Proof.
  induction k as [|k IH].
  - cbn [padDigits readDigits append Nat.pow]. now rewrite Nat.mod_1_r.
  - cbn [padDigits readDigits append].
    rewrite isDigit_digitChar, IH, digitVal_digitChar, <- mod_pow_succ.
    reflexivity.
Qed.

Lemma readDigits_small (k n : nat) (rest : string) :
  (n < 10 ^ k)%nat ->
  readDigits k (padDigits k n ++ rest) = Some (n, rest).
Proof.
  intros H. rewrite readDigits_padDigits, Nat.mod_small; auto.
Qed.

Lemma lt_pow10 (k n : nat) : Z.of_nat n < 10 ^ Z.of_nat k -> (n < 10 ^ k)%nat.
Proof.
  intros H. apply Nat2Z.inj_lt. now rewrite Nat2Z.inj_pow.
Qed.

Lemma readYear_yearPart (y : Z) (rest : string) :
  -271821 <= y <= 275760 ->
  readYear (yearPart y ++ rest) = Some (y, rest).
Proof.
  intros Hy. unfold yearPart.
  destruct ((0 <=? y) && (y <=? 9999))%bool eqn:Hr.
  - apply andb_prop in Hr. destruct Hr as [H0 H1].
    apply Z.leb_le in H0. apply Z.leb_le in H1.
    assert (Hd : readDigits 4 (padDigits 4 (Z.to_nat y) ++ rest)
                 = Some (Z.to_nat y, rest)).
    { apply readDigits_small, lt_pow10. rewrite Z2Nat.id by lia.
      change (10 ^ Z.of_nat 4) with 10000. lia. }
    unfold readYear. rewrite Hd.
    cbn [padDigits append].
    rewrite !digitChar_not by (vm_compute; lia).
    now rewrite Z2Nat.id.
  - assert (Hd : readDigits 6 (padDigits 6 (Z.to_nat (Z.abs y)) ++ rest)
                 = Some (Z.to_nat (Z.abs y), rest)).
    { apply readDigits_small, lt_pow10. rewrite Z2Nat.id by lia.
      change (10 ^ Z.of_nat 6) with 1000000. lia. }
    rewrite string_app_assoc.
    destruct (y <? 0) eqn:Hs.
    + apply Z.ltb_lt in Hs. unfold readYear. cbn [append].
      rewrite Hd. simpl (Ascii.eqb _ _). cbv iota.
      rewrite Z2Nat.id by lia. f_equal. f_equal. lia.
    + apply Z.ltb_ge in Hs. unfold readYear. cbn [append].
      rewrite Hd. simpl (Ascii.eqb _ _). cbv iota.
      rewrite Z2Nat.id by lia. f_equal. f_equal. lia.
Qed.

Lemma daysInMonth_le (y : Z) (m : nat) : (daysInMonth y m <= 31)%nat.
Proof.
  unfold daysInMonth.
  do 12 (destruct m as [|m]; [try destruct (isLeap y); lia|]). lia.
Qed.

Ltac next_field :=
  cbn [obind expect append]; simpl (Ascii.eqb _ _); cbv iota; cbn [obind].

(** A well-formed date prints to a string that the reader accepts and reads
    back as the same date. *)
Lemma parseISO_toISOString (d : DateTime) :
  wellFormed d = true -> parseISO (toISOString d) = Some d.
Proof.
  intros Hwf. pose proof Hwf as Hwf'.
  unfold wellFormed in Hwf'.
  repeat (apply andb_prop in Hwf'; destruct Hwf' as [Hwf' ?]).
  repeat match goal with
         | H : (_ <=? _) = true |- _ => apply Z.leb_le in H
         | H : (_ <=? _)%nat = true |- _ => apply Nat.leb_le in H
         | H : (_ <? _)%nat = true |- _ => apply Nat.ltb_lt in H
         end.
  pose proof (daysInMonth_le (year d) (month d)).
  unfold parseISO, toISOString.
  rewrite readYear_yearPart by lia. next_field.
  rewrite readDigits_small by (simpl; lia). next_field.
  rewrite readDigits_small by (simpl; lia). next_field.
  rewrite readDigits_small by (simpl; lia). next_field.
  rewrite readDigits_small by (simpl; lia). next_field.
  rewrite readDigits_small by (simpl; lia). next_field.
  rewrite readDigits_small by (simpl; lia). next_field.
  cbn [isEmpty andb].
  destruct d; cbn in *. rewrite Hwf. reflexivity.
Qed.

Lemma isISO8601_toISOString (d : DateTime) :
  wellFormed d = true -> isISO8601 (toISOString d) = true.
Proof.
  intros H. unfold isISO8601. now rewrite parseISO_toISOString.
Qed.

End IsoFacts.

(* ------------------------------------------------------------------ *)
(** ** Routines that cannot fail *)

Create HintDb tame.

Section Tame.

Variable E : Env.

Lemma tame_ret {A} (a : A) : tame (ret a).
Proof. intros w. exists a, w, []. now rewrite app_nil_r. Qed.

Lemma tame_bind {A B} (m : M A) (k : A -> M B) :
  tame m -> (forall a, tame (k a)) -> tame (bind m k).
Proof.
  intros Hm Hk w. unfold bind.
  destruct (Hm w) as (a & w1 & n1 & -> & H1).
  destruct (Hk a w1) as (b & w2 & n2 & -> & H2).
  exists b, w2, (n1 ++ n2)%list. split; [reflexivity|].
  now rewrite H2, H1, app_assoc.
Qed.

(** A [try] block that cannot throw makes its [catch] block dead code. *)
Lemma tryCatch_tame_body {A} (body : M A) (handler : JsValue -> M A) (w : World) :
  tame body -> tryCatch body handler w = body w.
Proof.
  intros Hb. unfold tryCatch.
  destruct (Hb w) as (a & w1 & n1 & -> & _). reflexivity.
Qed.

Lemma tame_tryCatch {A} (body : M A) (handler : JsValue -> M A) :
  tame body -> tame (tryCatch body handler).
Proof.
  intros Hb w. rewrite tryCatch_tame_body by assumption. apply Hb.
Qed.

Lemma tame_if {A} (c : bool) (a b : M A) :
  tame a -> tame b -> tame (if c then a else b).
Proof. destruct c; auto. Qed.

Lemma tame_emit (e : Event) : tame (emit e).
Proof. intros w. exists tt. eexists. exists [e]. split; reflexivity. Qed.

Lemma tame_consoleLog (s : string) : tame (consoleLog s).
Proof. apply tame_emit. Qed.

Lemma tame_consoleError (s : string) : tame (consoleError s).
Proof. apply tame_emit. Qed.

Lemma tame_consoleLogLines (l : list string) : tame (consoleLogLines l).
Proof. apply tame_emit. Qed.

Lemma tame_bunWrite (p c : string) (m : Z) : tame (bunWrite p c m).
Proof. apply tame_emit. Qed.

Lemma tame_rlClose : tame rlClose.
Proof. apply tame_emit. Qed.

Lemma tame_newDate : tame (newDate E).
Proof. intros w. eexists. eexists. exists [EvNow]. split; reflexivity. Qed.

Lemma tame_bunFileSize (p : string) : tame (bunFileSize E p).
Proof. intros w. eexists. eexists. exists [EvStat p]. split; reflexivity. Qed.

Lemma tame_getAdbPath : tame getAdbPath.
Proof. intros w. eexists. exists w, []. now rewrite app_nil_r. Qed.

Lemma tame_setAdbPath (v : JsValue) : tame (setAdbPath v).
Proof. intros w. eexists. eexists. exists []. split; [reflexivity|]. simpl. now rewrite app_nil_r. Qed.

Lemma tame_getDebugLog : tame getDebugLog.
Proof. intros w. eexists. exists w, []. now rewrite app_nil_r. Qed.

Lemma tame_appendDebugLog (s : string) : tame (appendDebugLog s).
Proof. intros w. eexists. eexists. exists []. split; [reflexivity|]. simpl. now rewrite app_nil_r. Qed.

Lemma tame_execCommand (command : string) : tame (execCommand E command).
Proof.
  intros w. destruct (execCommand_returns E command w) as (r & new & H).
  exists r. eexists. exists new. split; [exact H | reflexivity].
Qed.

Hint Resolve tame_ret tame_bind tame_tryCatch tame_if tame_emit tame_consoleLog
  tame_consoleError tame_consoleLogLines tame_bunWrite tame_rlClose tame_newDate
  tame_bunFileSize tame_getAdbPath tame_setAdbPath tame_getDebugLog
  tame_appendDebugLog tame_execCommand : tame.

Lemma tame_addToDebugLog (message : string) : tame (addToDebugLog E message).
Proof. unfold addToDebugLog. auto 10 with tame. Qed.
Hint Resolve tame_addToDebugLog : tame.

Lemma tame_fileExists (path : string) : tame (fileExists E path).
Proof. unfold fileExists. auto with tame. Qed.
Hint Resolve tame_fileExists : tame.

Lemma tame_firstExisting (paths : list string) : tame (firstExisting E paths).
Proof. induction paths; simpl; auto 10 with tame. Qed.
Hint Resolve tame_firstExisting : tame.

Lemma tame_findAdbPath : tame (findAdbPath E).
Proof. unfold findAdbPath. auto 10 with tame. Qed.

Lemma tame_isDeviceConnected : tame (isDeviceConnected E).
Proof. unfold isDeviceConnected. cbv zeta. auto 10 with tame. Qed.

Lemma tame_installedAppsTry : tame (installedAppsTry E).
Proof. unfold installedAppsTry. auto 10 with tame. Qed.

Lemma tame_storageInfoTry : tame (storageInfoTry E).
Proof. unfold storageInfoTry. auto 10 with tame. Qed.

Lemma tame_getInstalledApps : tame (getInstalledApps E).
Proof. apply tame_tryCatch, tame_installedAppsTry. Qed.

Lemma tame_getStorageInfo : tame (getStorageInfo E).
Proof. apply tame_tryCatch, tame_storageInfoTry. Qed.
Hint Resolve tame_findAdbPath tame_isDeviceConnected tame_getInstalledApps
  tame_getStorageInfo : tame.

Lemma tame_connectDevice (ipAddress port : string) : tame (connectDevice E ipAddress port).
Proof. unfold connectDevice. cbv zeta. auto 20 with tame. Qed.
Hint Resolve tame_connectDevice : tame.

Lemma tame_pairDevice (ipAddress port pairCode : string) :
  tame (pairDevice E ipAddress port pairCode).
Proof. unfold pairDevice. cbv zeta. auto 20 with tame. Qed.
Hint Resolve tame_pairDevice : tame.

End Tame.

#[export] Hint Resolve tame_ret tame_bind tame_tryCatch tame_if tame_emit tame_consoleLog
  tame_consoleError tame_consoleLogLines tame_bunWrite tame_rlClose tame_newDate
  tame_bunFileSize tame_getAdbPath tame_setAdbPath tame_getDebugLog
  tame_appendDebugLog tame_execCommand tame_addToDebugLog tame_fileExists
  tame_firstExisting tame_findAdbPath tame_isDeviceConnected tame_installedAppsTry
  tame_storageInfoTry tame_getInstalledApps tame_getStorageInfo tame_connectDevice
  tame_pairDevice : tame.

(* ------------------------------------------------------------------ *)
(** ** Running computations *)

Lemma bind_run {A B} (m : M A) (k : A -> M B) (w w1 : World) (a : A) :
  m w = (Ret a, w1) -> bind m k w = k a w1.
Proof. intros H. unfold bind. now rewrite H. Qed.

Lemma tame_run {A} (m : M A) (w : World) :
  tame m -> exists a new, m w = (Ret a, snd (m w)) /\ trace (snd (m w)) = (trace w ++ new)%list.
Proof.
  intros H. destruct (H w) as (a & w' & new & Hm & Ht).
  exists a, new. rewrite Hm. simpl. auto.
Qed.

(* ------------------------------------------------------------------ *)
(** ** The debug logger *)

(** One call of the logger: a reading of the clock, the line appended to
    the log in memory, the line written to the log file, the message echoed. *)
Lemma addToDebugLog_run (E : Env) (message : string) (w : World) :
  addToDebugLog E message w =
  let line := logLine (Iso.toISOString (clock E (trace w))) message in
  (Ret tt,
   {| adbPath := adbPath w;
      debugLog := debugLog w ++ line;
      trace := trace w ++ [EvNow; EvWrite logFile line 511; EvLog message] |}).
Proof.
  unfold addToDebugLog, bind, newDate, appendDebugLog, bunWrite, consoleLog,
    emit, logLine. simpl. now rewrite <- !app_assoc.
Qed.

(** C7. For every sequence of calls to the debug logger (with a clock whose
    readings are well-formed dates), the log in memory grows by one entry per
    call, in call order, each entry being ["<stamp>: <message>\n"] with a
    stamp that reads as a valid ISO-8601 date-time, and the messages are
    echoed to standard output in the same order. *)
Theorem debugLog_one_line_per_call (E : Env) (messages : list string) (w : World) :
  (forall t, Iso.wellFormed (clock E t) = true) ->
  exists stamps new w',
    logAll E messages w = (Ret tt, w')
    /\ length stamps = length messages
    /\ Forall (fun s => Iso.isISO8601 s = true) stamps
    /\ debugLog w' = debugLog w ++ renderLog (combine stamps messages)
    /\ trace w' = (trace w ++ new)%list
    /\ logged new = messages.
Proof.
  intros Hclock. revert w.
  induction messages as [|m rest IH]; intros w.
  - exists [], [], w. simpl.
    rewrite string_app_nil_r, app_nil_r. repeat split; auto.
  - simpl logAll. unfold bind at 1. rewrite addToDebugLog_run.
    cbv beta iota zeta.
    match goal with |- context [logAll E rest ?w1] =>
      destruct (IH w1) as (stamps & new & w' & Hrun & Hlen & Hiso & Hlog & Htr & Hecho)
    end.
    exists (Iso.toISOString (clock E (trace w)) :: stamps).
    exists ([EvNow;
             EvWrite logFile (logLine (Iso.toISOString (clock E (trace w))) m) 511;
             EvLog m] ++ new)%list.
    exists w'. rewrite Hrun. simpl in *.
    repeat split.
    + now rewrite Hlen.
    + constructor; [apply IsoFacts.isISO8601_toISOString, Hclock | assumption].
    + now rewrite Hlog, string_app_assoc.
    + now rewrite Htr, <- app_assoc.
    + now rewrite Hecho.
Qed.

Lemma debugLog_one_line_per_call_witness :
  exists stamps new w',
    logAll (Sample.env Sample.shNoDevice Sample.noFiles)
           ["Attempting to pair device..."; "Exit code: 1"] initialWorld = (Ret tt, w')
    /\ length stamps = 2%nat
    /\ Forall (fun s => Iso.isISO8601 s = true) stamps
    /\ debugLog w' = "" ++ renderLog (combine stamps ["Attempting to pair device..."; "Exit code: 1"])
    /\ trace w' = ([] ++ new)%list
    /\ logged new = ["Attempting to pair device..."; "Exit code: 1"].
Proof.
  apply (@debugLog_one_line_per_call
           (Sample.env Sample.shNoDevice Sample.noFiles)
           ["Attempting to pair device..."; "Exit code: 1"] initialWorld).
  intros t. reflexivity.
Defined.

(** C10. Every call of the debug logger writes its line to the path
    ["wearos_connector_debug.log "], with a trailing space; that is not the
    path ["wearos_connector_debug.log"] named by the notice that [main]
    prints last. *)
Theorem debugLog_file_name_mismatch (E : Env) (message : string) (w : World) :
  (exists line,
     trace (snd (addToDebugLog E message w))
     = (trace w ++ [EvNow; EvWrite "wearos_connector_debug.log " line 511; EvLog message])%list
     /\ line = logLine (Iso.toISOString (clock E (trace w))) message)
  /\ logFile = announcedLogFile ++ " "
  /\ logFile <> announcedLogFile
  /\ savedNotice = nl ++ "Full debug log has been saved to " ++ announcedLogFile
  /\ In (EvLog (colorText E savedNotice "yellow")) (closingEvents E (debugLog w)).
Proof.
  split; [|split; [|split; [|split]]].
  - rewrite addToDebugLog_run. cbv zeta. simpl. eauto.
  - reflexivity.
  - discriminate.
  - reflexivity.
  - simpl. auto.
Qed.

(* ------------------------------------------------------------------ *)
(** ** The connection prober *)

(** The prober, in terms of what the executor answered. *)
Lemma isDeviceConnected_run (E : Env) (w : World) :
  exists r w1 w',
    execCommand E "adb devices" w = (Ret r, w1)
    /\ isDeviceConnected E w
       = (Ret ((exitCode r =? 0) && (2 <=? countNonBlankLines (stdout r))%nat)%bool, w').
Proof.
  destruct (execCommand_returns E "adb devices" w) as (r & new & Hr).
  exists r. eexists. eexists. split; [exact Hr|].
  unfold isDeviceConnected.
  rewrite tryCatch_tame_body by (cbv zeta; auto 10 with tame).
  rewrite (@bind_run _ _ _ _ _ _ _ Hr). cbv zeta.
  unfold bind at 1. rewrite addToDebugLog_run. cbv beta iota zeta.
  unfold bind, consoleLogLines, emit, ret. cbv beta iota.
  rewrite nonBlankLines_length. reflexivity.
Qed.

(** C4. When the device-list command exits with [code] after printing
    [out], the prober answers [true] exactly when [code] is 0 and [out] has
    two or more non-blank lines: [false] for no or one non-blank line,
    [false] for every non-zero exit code whatever the lines. *)
Theorem isDeviceConnected_by_line_count (E : Env) (w : World)
    (o0 e0 out err : string) (code : Z) :
  shell E (trace w) "adb devices" = Exited o0 e0 0 ->
  shell E (trace w ++ [EvShell "adb devices"; EvLog (o0 ++ " which adb")])
        (rawScript "adb devices") = Exited out err code ->
  exists b w',
    isDeviceConnected E w = (Ret b, w')
    /\ (code = 0 -> (countNonBlankLines out <= 1)%nat -> b = false)
    /\ (code = 0 -> (2 <= countNonBlankLines out)%nat -> b = true)
    /\ (code <> 0 -> b = false).
Proof.
  intros H0 H1.
  destruct (isDeviceConnected_run E w) as (r & w1 & w' & Hr & Hrun).
  rewrite execCommand_cases, H0 in Hr.
  change (0 =? 0) with true in Hr. cbv beta iota zeta in Hr. rewrite H1 in Hr.
  eexists. exists w'. split; [exact Hrun|].
  destruct (code =? 0) eqn:Hc; inversion Hr; subst r; simpl.
  - apply Z.eqb_eq in Hc. rewrite Hc. simpl. repeat split.
    + intros _ Hle. destruct (countNonBlankLines out) as [|[|n]]; simpl; auto; lia.
    + intros _ Hge. destruct (countNonBlankLines out) as [|[|n]]; simpl; auto; lia.
    + congruence.
  - apply Z.eqb_neq in Hc. repeat split; auto; congruence.
Qed.

Lemma isDeviceConnected_by_line_count_witness :
  exists b w',
    isDeviceConnected (Sample.env Sample.shNoDevice Sample.noFiles) initialWorld = (Ret b, w')
    /\ (0 = 0 -> (countNonBlankLines Sample.header <= 1)%nat -> b = false)
    /\ (0 = 0 -> (2 <= countNonBlankLines Sample.header)%nat -> b = true)
    /\ (0 <> 0 -> b = false).
Proof.
  apply (@isDeviceConnected_by_line_count
           (Sample.env Sample.shNoDevice Sample.noFiles) initialWorld
           Sample.header "" Sample.header "" 0); reflexivity.
Defined.

(* ------------------------------------------------------------------ *)
(** ** The tool locator *)

Lemma find_map {A B} (f : B -> bool) (g : A -> B) (l : list A) :
  find f (map g l) = option_map g (find (fun x => f (g x)) l).
Proof.
  induction l as [|x l IH]; simpl; [reflexivity|].
  destruct (f (g x)); auto.
Qed.

Lemma find_pointwise {A} (f g : A -> bool) (l : list A) :
  (forall x, f x = g x) -> find f l = find g l.
Proof.
  intros H. induction l as [|x l IH]; simpl; [reflexivity|].
  rewrite H, IH. reflexivity.
Qed.

(** The loop over the fallback list returns the first path whose size is
    greater than zero, and [null] when there is none. *)
Lemma firstExisting_firstWithSize (E : Env) (paths : list string) (w : World) :
  fst (firstExisting E paths w) = Ret (firstWithSize E (trace w) paths).
Proof.
  revert w. induction paths as [|p rest IH]; intros w; [reflexivity|].
  unfold firstWithSize. cbn [length]. rewrite <- cons_seq, <- seq_shift.
  cbn [find]. unfold sizeWhenProbed at 1. cbn [firstn map nth]. rewrite app_nil_r.
  cbn [firstExisting]. unfold bind, fileExists, bunFileSize, bind, ret.
  cbv beta iota.
  destruct (0 <? fileSize E (trace w) p); [reflexivity|].
  rewrite IH. cbn [trace]. rewrite find_map. unfold firstWithSize.
  assert (Hext : forall l,
    find (fun x => 0 <? sizeWhenProbed E (trace w) (p :: rest) (S x)) l
    = find (fun i => 0 <? sizeWhenProbed E (trace w ++ [EvStat p]) rest i) l).
  { intros l. apply find_pointwise. intros i. unfold sizeWhenProbed.
    cbn [firstn map nth]. now rewrite <- app_assoc. }
  rewrite Hext.
  destruct (find _ (seq 0 (length rest))); reflexivity.
Qed.


(** The locator, in terms of what the executor answered to [which adb]. *)
Lemma findAdbPath_run (E : Env) (w : World) :
  exists r w1,
    execCommand E "which adb" w = (Ret r, w1)
    /\ let w2 := withTrace w1 (trace w1 ++ [EvLog (stdout r)]) in
       if ((exitCode r =? 0) && negb (isEmpty (trim (stdout r))))%bool
       then findAdbPath E w = (Ret (Some (trim (stdout r))), w2)
       else findAdbPath E w = firstExisting E (commonPaths E) w2.
Proof.
  destruct (execCommand_returns E "which adb" w) as (r & new & Hr).
  exists r. eexists. split; [exact Hr|]. cbv zeta.
  unfold findAdbPath. rewrite tryCatch_tame_body by auto 10 with tame.
  rewrite (@bind_run _ _ _ _ _ _ _ Hr). unfold bind at 1, consoleLog, emit. cbv beta iota.
  unfold withTrace. cbn [adbPath debugLog trace].
  destruct ((exitCode r =? 0) && negb (isEmpty (trim (stdout r))))%bool; reflexivity.
Qed.

Lemma execCommand_probed (E : Env) (command : string) (w w1 : World) r :
  execCommand E command w = (Ret r, w1) -> probed (trace w1) = probed (trace w).
Proof.
  rewrite execCommand_cases.
  destruct (shell E (trace w) "adb devices") as [o0 e0 c0|v].
  - destruct (c0 =? 0); cbv zeta.
    + destruct (shell E _ (rawScript command)) as [out err code|v].
      * destruct (code =? 0); intros H; inversion H; subst; simpl;
          rewrite !probed_app; simpl; now rewrite !app_nil_r.
      * intros H; inversion H; subst; simpl.
        rewrite !probed_app; simpl; now rewrite !app_nil_r.
    + intros H; inversion H; subst; simpl.
      rewrite !probed_app; simpl; now rewrite !app_nil_r.
  - intros H; inversion H; subst; simpl.
    rewrite !probed_app; simpl; now rewrite !app_nil_r.
Qed.

(** C5. The locator returns the trimmed output of [which adb], without asking
    for the size of any file, whenever the executor reports exit code 0 and a
    non-empty trimmed output for it; in every other case it returns the first
    path of its fixed, ordered fallback list whose size is greater than zero,
    and [null] when the list has no such path. *)
Theorem findAdbPath_which_then_fallbacks (E : Env) (w : World) :
  commonPaths E
  = [ "/usr/local/bin/adb";
      "/opt/homebrew/bin/adb";
      join E (homedir E) "Library/Android/sdk/platform-tools/adb";
      join E (homedir E) "Android/Sdk/platform-tools/adb";
      "/usr/bin/adb" ]
  /\ exists r w1,
      execCommand E "which adb" w = (Ret r, w1)
      /\ (exitCode r = 0 -> trim (stdout r) <> "" ->
          fst (findAdbPath E w) = Ret (Some (trim (stdout r)))
          /\ probed (trace (snd (findAdbPath E w))) = probed (trace w))
      /\ (~ (exitCode r = 0 /\ trim (stdout r) <> "") ->
          fst (findAdbPath E w)
          = Ret (firstWithSize E (trace w1 ++ [EvLog (stdout r)]) (commonPaths E))).
Proof.
  split; [reflexivity|].
  destruct (findAdbPath_run E w) as (r & w1 & Hr & Hrun).
  exists r, w1. split; [exact Hr|]. cbv zeta in Hrun.
  destruct ((exitCode r =? 0) && negb (isEmpty (trim (stdout r))))%bool eqn:Hc.
  - split.
    + intros _ _. rewrite Hrun. simpl. split; [reflexivity|].
      rewrite probed_app. simpl. rewrite app_nil_r.
      exact (execCommand_probed _ _ _ Hr).
    + intros Hn. exfalso. apply Hn.
      apply andb_prop in Hc. destruct Hc as [H0 H1].
      split; [now apply Z.eqb_eq|].
      intros Hs. rewrite Hs in H1. discriminate.
  - split.
    + intros H0 Hs. exfalso.
      apply andb_false_iff in Hc. destruct Hc as [Hc|Hc].
      * apply Z.eqb_neq in Hc. contradiction.
      * apply negb_false_iff, isEmpty_true in Hc. contradiction.
    + intros _. rewrite Hrun. now rewrite firstExisting_firstWithSize.
Qed.

Lemma findAdbPath_which_then_fallbacks_witness :
  fst (findAdbPath (Sample.env Sample.shNoDevice Sample.noFiles) initialWorld)
  = Ret (Some "/usr/bin/adb")
  /\ fst (findAdbPath (Sample.env Sample.shMissing Sample.onlyUsrBin) initialWorld)
     = Ret (Some "/usr/bin/adb").
Proof.
  split.
  - destruct (findAdbPath_which_then_fallbacks
                (Sample.env Sample.shNoDevice Sample.noFiles) initialWorld)
      as (_ & r & w1 & Hr & Hyes & _).
    vm_compute in Hr. inversion Hr; subst r.
    apply Hyes; [reflexivity | discriminate].
  - destruct (findAdbPath_which_then_fallbacks
                (Sample.env Sample.shMissing Sample.onlyUsrBin) initialWorld)
      as (_ & r & w1 & Hr & _ & Hno).
    vm_compute in Hr. inversion Hr; subst r w1.
    rewrite Hno; [reflexivity|].
    intros [H _]. discriminate H.
Defined.


(* ------------------------------------------------------------------ *)
(** ** The orchestrator *)

(** The three prompts either all return, or the first that fails throws. *)
Lemma askConnection_cases (E : Env) (wa : World) :
  (exists ip port code wq, askConnection E wa = (Ret (ip, port, code), wq))
  \/ (exists v wq t query,
        askConnection E wa = (Throw v, wq) /\ answer E t query = PromptFailed v).
Proof.
  unfold askConnection, bind, consoleLog, question, emit, ret.
  cbv beta iota zeta. cbn [adbPath debugLog trace].
  destruct (answer E _ "Enter IP Address: ") as [ip|v] eqn:H1;
    [|right; eauto 8].
  destruct (answer E _ "Enter Port: ") as [port|v] eqn:H2;
    [|right; eauto 8].
  destruct (answer E _ "Enter Pair Code: ") as [code|v] eqn:H3;
    [|right; eauto 8].
  left. eauto 8.
Qed.

(** The not-connected flow: with the three answers it pairs, connects and
    runs to the last statement of [main]; a prompt that throws ends it
    there. *)
Lemma mainAfterLocate_asks (E : Env) (w wa : World) :
  isDeviceConnected E w = (Ret false, wa) ->
  mainAfterLocate E w
  = match askConnection E wa with
    | (Ret (ip, port, code), wq) =>
        (Ret tt,
         let wc := snd (connectDevice E ip port (snd (pairDevice E ip port code wq))) in
         withTrace wc (trace wc ++ closingEvents E (debugLog wc)))
    | (Throw v, wq) => (Throw v, wq)
    | (Exit c, wq) => (Exit c, wq)
    end.
Proof.
  intros Hc. unfold mainAfterLocate.
  rewrite (@bind_run _ _ _ _ _ _ _ Hc).
  unfold askConnection, bind, consoleLog, question, getDebugLog, rlClose, emit, ret.
  cbv beta iota zeta. cbn [adbPath debugLog trace].
  destruct (answer E _ "Enter IP Address: ") as [ip|v]; [|reflexivity].
  destruct (answer E _ "Enter Port: ") as [port|v]; [|reflexivity].
  destruct (answer E _ "Enter Pair Code: ") as [code|v]; [|reflexivity].
  match goal with |- context [pairDevice E ?ip ?port ?code ?wq] =>
    destruct (@tame_run _ (pairDevice E ip port code) wq
                (tame_pairDevice E ip port code)) as (u1 & n1 & Hp & _);
    rewrite Hp;
    destruct (@tame_run _ (connectDevice E ip port) (snd (pairDevice E ip port code wq))
                (tame_connectDevice E ip port)) as (u2 & n2 & Hq & _);
    rewrite Hq
  end.
  cbv beta iota zeta. unfold withTrace, closingEvents. now rewrite <- !app_assoc.
Qed.

(** The already-connected flow always runs to the last statement. *)
Lemma mainAfterLocate_connected (E : Env) (w wa : World) :
  isDeviceConnected E w = (Ret true, wa) ->
  exists w1,
    mainAfterLocate E w
    = (Ret tt, withTrace w1 (trace w1 ++ closingEvents E (debugLog w1))).
Proof.
  intros Hc. unfold mainAfterLocate.
  rewrite (@bind_run _ _ _ _ _ _ _ Hc). cbv beta iota.
  match goal with |- context [bind ?m _ wa] =>
    assert (Hm : tame m) by auto 20 with tame;
    destruct (Hm wa) as (u & wb & n2 & Hb & _);
    rewrite (@bind_run _ _ _ _ _ _ _ Hb)
  end.
  exists wb.
  unfold bind, consoleLog, getDebugLog, rlClose, emit, withTrace, closingEvents.
  cbv beta iota. cbn [adbPath debugLog trace].
  now rewrite <- !app_assoc.
Qed.

(** Once the tool is located, [main] runs to its last statement, printing the
    debug log and closing the prompt, unless one of its prompts throws. *)
Lemma mainAfterLocate_run (E : Env) (w : World) :
  (exists w1,
     mainAfterLocate E w
     = (Ret tt, withTrace w1 (trace w1 ++ closingEvents E (debugLog w1))))
  \/ (exists v t query,
        answer E t query = PromptFailed v /\ fst (mainAfterLocate E w) = Throw v).
Proof.
  destruct (tame_isDeviceConnected E w) as ([|] & wa & n1 & Hc & _).
  - left. exact (mainAfterLocate_connected E w Hc).
  - rewrite (mainAfterLocate_asks E w Hc).
    destruct (askConnection_cases E wa)
      as [(ip & port & code & wq & Ha)|(v & wq & t & query & Ha & Hv)];
      rewrite Ha.
    + left. eauto.
    + right. exists v, t, query. auto.
Qed.





(* ------------------------------------------------------------------ *)
(** ** The command strings *)(* ------------------------------------------------------------------ *)
(** ** The command strings *)

Lemma issued_of_trace {A} (m : M A) (w : World) (new : list Event) :
  trace (snd (m w)) = (trace w ++ new)%list -> issued m w = scripts new.
Proof.
  intros H. unfold issued. now rewrite H, skipn_length_app.
Qed.

(** One call of the executor hands over the diagnostic, then the requested
    command if the diagnostic exited 0, and nothing else. *)
Lemma execCommand_scripts (E : Env) (command : string) (w : World) :
  exists r new,
    execCommand E command w = (Ret r, withTrace w (trace w ++ new))
    /\ scripts new = execScripts E (trace w) command.
Proof.
  rewrite execCommand_cases. unfold execScripts.
  destruct (shell E (trace w) "adb devices") as [o0 e0 c0|v].
  - destruct (c0 =? 0); cbv zeta.
    + destruct (shell E _ (rawScript command)) as [out err code|v].
      * destruct (code =? 0); rewrite <- app_assoc; eexists; eexists;
          (split; [reflexivity|]); reflexivity.
      * rewrite <- app_assoc; eexists; eexists; (split; [reflexivity|]); reflexivity.
    + eexists; eexists; (split; [reflexivity|]); reflexivity.
  - eexists; eexists; (split; [reflexivity|]); reflexivity.
Qed.

Lemma isDeviceConnected_issued (E : Env) (w : World) :
  issued (isDeviceConnected E) w = execScripts E (trace w) "adb devices".
Proof.
  destruct (execCommand_scripts E "adb devices" w) as (r & new & Hr & Hs).
  eassert (Ht : trace (snd (isDeviceConnected E w)) = (trace w ++ new ++ _)%list).
  { unfold isDeviceConnected.
    rewrite tryCatch_tame_body by (cbv zeta; auto 10 with tame).
    rewrite (@bind_run _ _ _ _ _ _ _ Hr). cbv zeta.
    unfold bind at 1. rewrite addToDebugLog_run. cbv beta iota zeta.
    unfold bind, consoleLogLines, emit, ret. cbv beta iota.
    cbn [snd trace withTrace]. rewrite <- !app_assoc. reflexivity. }
  rewrite (@issued_of_trace _ _ _ _ Ht), scripts_app, Hs.
  cbn [scripts app]. apply app_nil_r.
Qed.

(** The info routines: the [catch] block is never entered, and the one
    command handed to the executor starts with the resolved tool path. *)
Lemma getInstalledApps_issued (E : Env) (w : World) :
  issued (getInstalledApps E) w
  = execScripts E (trace w) (Js.toString (adbPath w) ++ " shell pm list packages").
Proof.
  destruct (execCommand_scripts E (Js.toString (adbPath w) ++ " shell pm list packages") w)
    as (r & new & Hr & Hs).
  unfold issued, getInstalledApps.
  rewrite tryCatch_tame_body by auto with tame.
  unfold installedAppsTry, bind at 1, getAdbPath. cbv beta iota.
  rewrite (@bind_run _ _ _ _ _ _ _ Hr).
  destruct (exitCode r =? 0);
    unfold bind, consoleLog, consoleError, emit; cbv beta iota;
    cbn [snd trace withTrace];
    rewrite <- ?app_assoc, skipn_length_app, scripts_app, Hs;
    cbn [scripts app]; apply app_nil_r.
Qed.

Lemma getStorageInfo_issued (E : Env) (w : World) :
  issued (getStorageInfo E) w
  = execScripts E (trace w) (Js.toString (adbPath w) ++ " shell df").
Proof.
  destruct (execCommand_scripts E (Js.toString (adbPath w) ++ " shell df") w)
    as (r & new & Hr & Hs).
  unfold issued, getStorageInfo.
  rewrite tryCatch_tame_body by auto with tame.
  unfold storageInfoTry, bind at 1, getAdbPath. cbv beta iota.
  rewrite (@bind_run _ _ _ _ _ _ _ Hr).
  destruct (exitCode r =? 0);
    unfold bind, consoleLog, consoleError, emit; cbv beta iota;
    cbn [snd trace withTrace];
    rewrite <- ?app_assoc, skipn_length_app, scripts_app, Hs;
    cbn [scripts app]; apply app_nil_r.
Qed.

(** The connect routine logs its command, then hands it to the executor;
    whatever follows only adds to the trace. *)
Lemma connectDevice_issued (E : Env) (w : World) (ipAddress port : string) :
  let command := "adb connect " ++ ipAddress ++ ":" ++ port in
  let w1 := snd (addToDebugLog E ("Connecting device with command: " ++ command) w) in
  exists rest,
    issued (connectDevice E ipAddress port) w
    = (execScripts E (trace w1) command ++ rest)%list.
Proof.
  cbv zeta. rewrite addToDebugLog_run. cbv zeta. cbn [snd].
  match goal with |- context [execScripts E (trace ?w1) ?c] =>
    destruct (execCommand_scripts E c w1) as (r & new & Hr & Hs)
  end.
  unfold issued, connectDevice.
  rewrite tryCatch_tame_body by (cbv zeta; auto 20 with tame).
  cbv zeta. unfold bind at 1. rewrite addToDebugLog_run. cbv beta iota zeta.
  unfold connectCommand.
  rewrite (@bind_run _ _ _ _ _ _ _ Hr).
  match goal with |- context [snd (?k ?w2)] =>
    assert (Hk : tame k) by auto 20 with tame;
    destruct (Hk w2) as (u & w3 & rest & Hrun & Ht)
  end.
  rewrite Hrun. cbn [snd]. rewrite Ht. cbn [trace withTrace].
  exists (scripts rest).
  rewrite <- !app_assoc, skipn_length_app. cbn [app scripts].
  cbn [trace] in Hs. rewrite scripts_app, Hs. reflexivity.
Qed.

(** The pair routine logs twice, then hands its command to the executor;
    whatever follows only adds to the trace. *)
Lemma pairDevice_issued (E : Env) (w : World) (ipAddress port pairCode : string) :
  let command := "adb pair " ++ ipAddress ++ ":" ++ port ++ " " ++ pairCode in
  let w1 := snd (addToDebugLog E "Attempting to pair device..." w) in
  let w2 := snd (addToDebugLog E ("Command: " ++ command) w1) in
  exists rest,
    issued (pairDevice E ipAddress port pairCode) w
    = (execScripts E (trace w2) command ++ rest)%list.
Proof.
  cbv zeta. rewrite !addToDebugLog_run. cbv zeta. cbn [snd].
  match goal with |- context [execScripts E (trace ?w2) ?c] =>
    destruct (execCommand_scripts E c w2) as (r & new & Hr & Hs)
  end.
  cbn [adbPath debugLog trace] in Hr, Hs |- *.
  unfold issued, pairDevice.
  rewrite tryCatch_tame_body by (cbv zeta; auto 20 with tame).
  cbv zeta. unfold bind at 1. rewrite addToDebugLog_run. cbv beta iota zeta.
  unfold bind at 1. rewrite addToDebugLog_run. cbv beta iota zeta.
  cbn [adbPath debugLog trace]. unfold pairCommand.
  rewrite (@bind_run _ _ _ _ _ _ _ Hr).
  match goal with |- context [snd (?k ?w3)] =>
    assert (Hk : tame k) by auto 20 with tame;
    destruct (Hk w3) as (u & w4 & rest & Hrun & Ht)
  end.
  rewrite Hrun. cbn [snd]. rewrite Ht. cbn [trace withTrace].
  exists (scripts rest).
  rewrite <- !app_assoc, skipn_length_app. cbn [app scripts].
  rewrite scripts_app, Hs. rewrite <- ?app_assoc. reflexivity.
Qed.

(** C9. The probe, the pair routine and the connect routine hand the executor
    commands that begin with the literal [adb], whatever the resolved tool
    path is; only the package-list and disk-free commands begin with the
    resolved path.  (Each call of the executor also runs its own diagnostic,
    the literal [adb devices].)  In particular a tool located at an absolute
    path, as the literal entries of the fallback list are, is not what these
    three commands start with. *)
Theorem adb_literal_in_probe_pair_connect (E : Env) (w : World)
    (ipAddress port pairCode : string) :
  issued (isDeviceConnected E) w = execScripts E (trace w) "adb devices"
  /\ (let command := "adb pair " ++ ipAddress ++ ":" ++ port ++ " " ++ pairCode in
      let w1 := snd (addToDebugLog E "Attempting to pair device..." w) in
      let w2 := snd (addToDebugLog E ("Command: " ++ command) w1) in
      exists rest,
        issued (pairDevice E ipAddress port pairCode) w
        = (execScripts E (trace w2) command ++ rest)%list)
  /\ (let command := "adb connect " ++ ipAddress ++ ":" ++ port in
      let w1 := snd (addToDebugLog E ("Connecting device with command: " ++ command) w) in
      exists rest,
        issued (connectDevice E ipAddress port) w
        = (execScripts E (trace w1) command ++ rest)%list)
  /\ issued (getInstalledApps E) w
     = execScripts E (trace w) (Js.toString (adbPath w) ++ " shell pm list packages")
  /\ issued (getStorageInfo E) w
     = execScripts E (trace w) (Js.toString (adbPath w) ++ " shell df")
  /\ (forall t command,
        execScripts E t command = ["adb devices"]
        \/ execScripts E t command = ["adb devices"; rawScript command])
  /\ (forall located,
        prefix "/" located = true ->
        prefix located "adb devices" = false
        /\ prefix located ("adb pair " ++ ipAddress ++ ":" ++ port ++ " " ++ pairCode) = false
        /\ prefix located ("adb connect " ++ ipAddress ++ ":" ++ port) = false).
Proof.
  split; [apply isDeviceConnected_issued|].
  split; [apply pairDevice_issued|].
  split; [apply connectDevice_issued|].
  split; [apply getInstalledApps_issued|].
  split; [apply getStorageInfo_issued|].
  split.
  - intros t command. unfold execScripts.
    destruct (shell E t "adb devices") as [o e c|v]; [destruct (c =? 0)|]; auto.
  - intros located Habs. destruct located as [|c rest]; [discriminate|].
    cbn [prefix] in Habs. destruct (ascii_dec "/" c) as [<-|]; [|discriminate].
    repeat split; reflexivity.
Qed.

(* ------------------------------------------------------------------ *)
(** ** The offline hint *)

(** The [catch] blocks of the info routines, the only places that print the
    offline hint, are never entered: the executor has already turned every
    failure into a result. *)
Lemma info_catch_unreachable (E : Env) (w : World) :
  getInstalledApps E w = installedAppsTry E w
  /\ getStorageInfo E w = storageInfoTry E w.
Proof.
  split; apply tryCatch_tame_body; auto with tame.
Qed.

(** C3, at failing inputs. With the device offline, whether [adb] exits 1
    after writing ["error: device offline"] or the shell layer throws an
    error with that message, both info routines print the generic failure
    text and never the offline hint. *)
Theorem offline_failure_prints_generic_error :
  let E1 := Sample.env Sample.shOffline Sample.noFiles in
  let E2 := Sample.env Sample.shNoDevice Sample.noFiles in
  let hint := "<yellow>Device is offline. Please ensure it's connected and try again.<reset>" in
  includes ("error: device offline" ++ nl) "device offline" = true
  /\ errors (trace (snd (getInstalledApps E1 Sample.located)))
     = ["<red>Failed to get installed apps: ShellError: Failed with exit code 1<reset>"]
  /\ errors (trace (snd (getStorageInfo E1 Sample.located)))
     = ["<red>Failed to get storage info: ShellError: Failed with exit code 1<reset>"]
  /\ errors (trace (snd (getInstalledApps E2 Sample.located)))
     = ["<red>Failed to get installed apps: Error: error: device offline<reset>"]
  /\ errors (trace (snd (getStorageInfo E2 Sample.located)))
     = ["<red>Failed to get storage info: Error: error: device offline<reset>"]
  /\ colorText E1 offlineHint "yellow" = hint
  /\ colorText E2 offlineHint "yellow" = hint.
Proof.
  vm_compute. repeat split.
Qed.

(* ------------------------------------------------------------------ *)
(** ** Pairing, then connecting *)

(** When the pair command fails, the pair routine prints the error and does
    not itself call the connect routine. *)
Lemma pairDevice_failure (E : Env) (w : World) (ipAddress port pairCode : string) :
  let command := "adb pair " ++ ipAddress ++ ":" ++ port ++ " " ++ pairCode in
  let w1 := snd (addToDebugLog E "Attempting to pair device..." w) in
  let w2 := snd (addToDebugLog E ("Command: " ++ command) w1) in
  forall r w3,
    execCommand E command w2 = (Ret r, w3) ->
    exitCode r <> 0 ->
    exists w4,
      pairDevice E ipAddress port pairCode w
      = (Ret tt,
         withTrace w4
           (trace w4
            ++ [EvError (colorText E ("Pairing failed: " ++ Js.toString (stderr r)) "red")]))
      /\ scripts (trace w4) = scripts (trace w3).
Proof.
  cbv zeta. rewrite !addToDebugLog_run. cbv zeta. cbn [snd].
  intros r w3 Hr Hcode.
  unfold pairDevice.
  rewrite tryCatch_tame_body by (cbv zeta; auto 20 with tame).
  cbv zeta. unfold bind at 1. rewrite addToDebugLog_run. cbv beta iota zeta.
  unfold bind at 1. rewrite addToDebugLog_run. cbv beta iota zeta.
  unfold pairCommand.
  rewrite (@bind_run _ _ _ _ _ _ _ Hr).
  apply Z.eqb_neq in Hcode. rewrite Hcode.
  do 3 (unfold bind at 1; rewrite addToDebugLog_run; cbv beta iota zeta).
  unfold consoleError, emit, withTrace. cbn [adbPath debugLog trace].
  eexists {| adbPath := _; debugLog := _; trace := _ |}.
  cbn [adbPath debugLog trace]. split; [reflexivity|].
  rewrite !scripts_app. simpl. now rewrite !app_nil_r.
Qed.

(** In the not-connected flow, once the three prompts are answered, [main]
    calls the connect routine after the pair routine has returned, whatever
    the pairing came to. *)
Lemma connect_runs_after_pair (E : Env) (w wa wq : World)
    (ipAddress port pairCode : string) :
  isDeviceConnected E w = (Ret false, wa) ->
  askConnection E wa = (Ret (ipAddress, port, pairCode), wq) ->
  mainAfterLocate E w
  = (Ret tt,
     let wc := snd (connectDevice E ipAddress port
                      (snd (pairDevice E ipAddress port pairCode wq))) in
     withTrace wc (trace wc ++ closingEvents E (debugLog wc))).
Proof.
  intros Hc Hask. rewrite (mainAfterLocate_asks E w Hc), Hask. reflexivity.
Qed.

(** C1, at a failing input. [adb] is installed, no device is attached and the
    pair command exits 1: after ["Pairing failed"] is printed, [main] still
    runs the connect command. *)
Theorem failed_pairing_is_followed_by_connect :
  let E := Sample.env Sample.shNoDevice Sample.noFiles in
  let w := snd (main E initialWorld) in
  fst (main E initialWorld) = Ret tt
  /\ errors (trace w)
     = [ "<red>Pairing failed: ShellError: Failed with exit code 1<reset>";
         "<red>Connection failed: ShellError: Failed with exit code 1<reset>" ]
  /\ scripts (trace w)
     = [ "adb devices"; rawScript "which adb";
         "adb devices"; rawScript "adb devices";
         "adb devices"; rawScript "adb pair 192.168.1.20:5555 123456";
         "adb devices"; rawScript "adb connect 192.168.1.20:5555" ].
Proof.
  vm_compute. repeat split.
Qed.

(* ------------------------------------------------------------------ *)
(** ** Orderly computations *)

Lemma written_app (a b : list Event) : written (a ++ b) = written a ++ written b.
Proof.
  induction a as [|e a IH]; simpl; [reflexivity|].
  destruct e; simpl; rewrite IH; auto using string_app_assoc.
Qed.

Lemma questions_app (a b : list Event) :
  questions (a ++ b) = (questions a ++ questions b)%list.
Proof.
  induction a as [|e a IH]; simpl; [reflexivity|].
  destruct e; simpl; now rewrite IH.
Qed.

Lemma errors_app (a b : list Event) : errors (a ++ b) = (errors a ++ errors b)%list.
Proof.
  induction a as [|e a IH]; simpl; [reflexivity|].
  destruct e; simpl; now rewrite IH.
Qed.

Lemma routineEvent_no_questions (t : list Event) :
  Forall routineEvent t -> questions t = [].
Proof.
  induction 1 as [|e t He _ IH]; [reflexivity|].
  destruct e; simpl in *; auto; contradiction.
Qed.

Lemma routineEvent_writesLogFile (e : Event) : routineEvent e -> writesLogFile e.
Proof. destruct e; simpl; auto. Qed.

Create HintDb orderly.

Section Orderly.

Variable E : Env.
Variable P : Event -> Prop.
Variable fixPath : bool.
Hypothesis routine_in_P : forall e, routineEvent e -> P e.

Lemma orderly_ret {A} (a : A) : orderly P fixPath (ret a).
Proof.
  intros w. exists []. simpl.
  now rewrite app_nil_r, string_app_nil_r.
Qed.

Lemma orderly_processExit {A} (code : Z) : orderly P fixPath (@processExit A code).
Proof.
  intros w. exists []. simpl.
  now rewrite app_nil_r, string_app_nil_r.
Qed.

Lemma orderly_getAdbPath : orderly P fixPath getAdbPath.
Proof.
  intros w. exists []. simpl.
  now rewrite app_nil_r, string_app_nil_r.
Qed.

Lemma orderly_getDebugLog : orderly P fixPath getDebugLog.
Proof.
  intros w. exists []. simpl.
  now rewrite app_nil_r, string_app_nil_r.
Qed.

(** Sequencing, whether the first part returns, throws or exits. *)
Lemma orderly_bind {A B} (m : M A) (k : A -> M B) :
  orderly P fixPath m -> (forall a, orderly P fixPath (k a)) ->
  orderly P fixPath (bind m k).
Proof.
  intros Hm Hk w. unfold bind.
  destruct (Hm w) as (n1 & Ht & Hd & Hp & Hf).
  destruct (m w) as [[a|v|c] w1]; cbn [snd] in *; try (exists n1; now auto).
  destruct (Hk a w1) as (n2 & Ht2 & Hd2 & Hp2 & Hf2).
  exists (n1 ++ n2)%list. repeat split.
  - now rewrite Ht2, Ht, app_assoc.
  - now rewrite Hd2, Hd, written_app, string_app_assoc.
  - intros Hfix. now rewrite Hp2, Hp.
  - apply Forall_app; auto.
Qed.

Lemma orderly_tryCatch {A} (body : M A) (handler : JsValue -> M A) :
  orderly P fixPath body -> (forall v, orderly P fixPath (handler v)) ->
  orderly P fixPath (tryCatch body handler).
Proof.
  intros Hb Hh w. unfold tryCatch.
  destruct (Hb w) as (n1 & Ht & Hd & Hp & Hf).
  destruct (body w) as [[a|v|c] w1]; cbn [snd] in *; try (exists n1; now auto).
  destruct (Hh v w1) as (n2 & Ht2 & Hd2 & Hp2 & Hf2).
  exists (n1 ++ n2)%list. repeat split.
  - now rewrite Ht2, Ht, app_assoc.
  - now rewrite Hd2, Hd, written_app, string_app_assoc.
  - intros Hfix. now rewrite Hp2, Hp.
  - apply Forall_app; auto.
Qed.

Lemma orderly_if {A} (c : bool) (a b : M A) :
  orderly P fixPath a -> orderly P fixPath b ->
  orderly P fixPath (if c then a else b).
Proof. destruct c; auto. Qed.

(** An event that writes nothing. *)
Lemma orderly_emit (e : Event) :
  P e -> written [e] = "" -> orderly P fixPath (emit e).
Proof.
  intros He Hw w. exists [e]. cbn [snd emit trace debugLog adbPath].
  rewrite Hw, string_app_nil_r. auto.
Qed.

Lemma orderly_consoleLog (s : string) : orderly P fixPath (consoleLog s).
Proof. apply orderly_emit; [apply routine_in_P; exact I | reflexivity]. Qed.

Lemma orderly_consoleError (s : string) : orderly P fixPath (consoleError s).
Proof. apply orderly_emit; [apply routine_in_P; exact I | reflexivity]. Qed.

Lemma orderly_consoleLogLines (l : list string) : orderly P fixPath (consoleLogLines l).
Proof. apply orderly_emit; [apply routine_in_P; exact I | reflexivity]. Qed.

Lemma orderly_consoleLogResult (r : ShellOutput) : orderly P fixPath (consoleLogResult r).
Proof. apply orderly_emit; [apply routine_in_P; exact I | reflexivity]. Qed.

Lemma orderly_dollar (script : string) : orderly P fixPath (dollar E script).
Proof.
  intros w. exists [EvShell script]. unfold dollar.
  destruct (shell E (trace w) script) as [out err code|v];
    [destruct (code =? 0)|]; cbn [snd trace debugLog adbPath written];
    rewrite string_app_nil_r; repeat split; auto;
    constructor; auto; apply routine_in_P; exact I.
Qed.

Lemma orderly_bunFileSize (path : string) : orderly P fixPath (bunFileSize E path).
Proof.
  intros w. exists [EvStat path]. cbn [snd bunFileSize trace debugLog adbPath written].
  rewrite string_app_nil_r; repeat split; auto.
  constructor; auto; apply routine_in_P; exact I.
Qed.

(** The logger appends to the log in memory exactly the line it writes to
    the log file. *)
Lemma orderly_addToDebugLog (message : string) :
  orderly P fixPath (addToDebugLog E message).
Proof.
  intros w. rewrite addToDebugLog_run. cbv zeta. eexists.
  cbn [snd trace debugLog adbPath]. split; [reflexivity|].
  cbn [written]. rewrite string_app_nil_r.
  repeat split; auto.
  repeat constructor; apply routine_in_P; simpl; auto.
Qed.

Hint Resolve orderly_ret orderly_processExit orderly_getAdbPath orderly_getDebugLog
  orderly_bind orderly_tryCatch orderly_if orderly_consoleLog orderly_consoleError
  orderly_consoleLogLines orderly_consoleLogResult orderly_dollar orderly_bunFileSize
  orderly_addToDebugLog : orderly.

Lemma orderly_execCommand (command : string) :
  orderly P fixPath (execCommand E command).
Proof. unfold execCommand, execTry, execCatch. auto 20 with orderly. Qed.
Hint Resolve orderly_execCommand : orderly.

Lemma orderly_firstExisting (paths : list string) :
  orderly P fixPath (firstExisting E paths).
Proof. induction paths; simpl; unfold fileExists; auto 10 with orderly. Qed.
Hint Resolve orderly_firstExisting : orderly.

Lemma orderly_findAdbPath : orderly P fixPath (findAdbPath E).
Proof. unfold findAdbPath. auto 10 with orderly. Qed.

Lemma orderly_isDeviceConnected : orderly P fixPath (isDeviceConnected E).
Proof. unfold isDeviceConnected. cbv zeta. auto 10 with orderly. Qed.

Lemma orderly_getInstalledApps : orderly P fixPath (getInstalledApps E).
Proof.
  unfold getInstalledApps, installedAppsTry, installedAppsCatch.
  auto 10 with orderly.
Qed.

Lemma orderly_getStorageInfo : orderly P fixPath (getStorageInfo E).
Proof.
  unfold getStorageInfo, storageInfoTry, storageInfoCatch.
  auto 10 with orderly.
Qed.
Hint Resolve orderly_findAdbPath orderly_isDeviceConnected orderly_getInstalledApps
  orderly_getStorageInfo : orderly.

Lemma orderly_connectDevice (ipAddress port : string) :
  orderly P fixPath (connectDevice E ipAddress port).
Proof. unfold connectDevice. cbv zeta. auto 20 with orderly. Qed.
Hint Resolve orderly_connectDevice : orderly.

Lemma orderly_pairDevice (ipAddress port pairCode : string) :
  orderly P fixPath (pairDevice E ipAddress port pairCode).
Proof. unfold pairDevice. cbv zeta. auto 20 with orderly. Qed.

End Orderly.

#[export] Hint Resolve orderly_ret orderly_processExit orderly_getAdbPath
  orderly_getDebugLog orderly_bind orderly_tryCatch orderly_if orderly_consoleLog
  orderly_consoleError orderly_consoleLogLines orderly_consoleLogResult orderly_dollar
  orderly_bunFileSize orderly_addToDebugLog orderly_execCommand orderly_firstExisting
  orderly_findAdbPath orderly_isDeviceConnected orderly_getInstalledApps
  orderly_getStorageInfo orderly_connectDevice orderly_pairDevice
  routineEvent_writesLogFile : orderly.

Lemma orderly_question (E : Env) (fixPath : bool) (query : string) :
  orderly writesLogFile fixPath (question E query).
Proof.
  intros w. exists [EvQuestion query]. unfold question. cbv zeta.
  destruct (answer E (trace w) query);
    cbn [snd trace debugLog adbPath written];
    rewrite string_app_nil_r; repeat split; auto; repeat constructor.
Qed.

Lemma orderly_rlClose (fixPath : bool) : orderly writesLogFile fixPath rlClose.
Proof. apply orderly_emit; [exact I | reflexivity]. Qed.

Lemma orderly_setAdbPath (P : Event -> Prop) (v : JsValue) :
  orderly P false (setAdbPath v).
Proof.
  intros w. exists []. cbn [snd setAdbPath trace debugLog written].
  rewrite app_nil_r, string_app_nil_r. repeat split; auto. discriminate.
Qed.

#[export] Hint Resolve orderly_question orderly_rlClose orderly_setAdbPath : orderly.

Lemma orderly_mainAfterLocate (E : Env) (fixPath : bool) :
  orderly writesLogFile fixPath (mainAfterLocate E).
Proof. unfold mainAfterLocate. auto 30 with orderly. Qed.

Lemma orderly_main (E : Env) : orderly writesLogFile false (main E).
Proof.
  pose proof (orderly_mainAfterLocate E false).
  unfold main. auto 30 with orderly.
Qed.

(* ------------------------------------------------------------------ *)
(** ** The orchestrator, case by case *)

(** [main] up to its test of [adbPath]: it either ends the process with
    status 1 right after its complaint, or goes on with the rest. *)
Lemma main_cases (E : Env) (w : World) :
  exists located w0,
    findAdbPath E (afterBanner E w) = (Ret located, w0)
    /\ if Js.truthy (ofNullable located) then
         main E w
         = mainAfterLocate E
             {| adbPath := ofNullable located;
                debugLog := debugLog w0;
                trace := trace w0
                         ++ [EvLog (colorText E ("ADB found at: "
                                                 ++ Js.toString (ofNullable located))
                                      "green")] |}
       else
         main E w
         = (Exit 1,
            {| adbPath := ofNullable located;
               debugLog := debugLog w0;
               trace := trace w0
                        ++ [EvError
                              (colorText E
                                 "ADB not found. Please install it and add it to your PATH."
                                 "red")] |}).
Proof.
  destruct (tame_findAdbPath E (afterBanner E w)) as (located & w0 & n0 & Hf & _).
  exists located, w0. split; [exact Hf|].
  unfold main.
  rewrite (@bind_run _ _ _ _ w (afterBanner E w) tt eq_refl).
  rewrite (@bind_run _ _ _ _ _ _ _ Hf).
  cbv beta iota zeta delta [bind setAdbPath getAdbPath consoleError consoleLog
                             emit processExit ret].
  cbn [adbPath debugLog trace].
  destruct (Js.truthy (ofNullable located)); cbn [negb]; reflexivity.
Qed.

(* ------------------------------------------------------------------ *)
(** ** More on the executor *)

(** When the diagnostic does not exit 0, the executor stops there. *)
Lemma execCommand_diag_fails (E : Env) (command : string) (w : World) :
  (forall o e, shell E (trace w) "adb devices" <> Exited o e 0) ->
  exists err,
    execCommand E command w
    = (Ret (caught err), withTrace w (trace w ++ [EvShell "adb devices"])).
Proof.
  intros Hd. rewrite execCommand_cases.
  destruct (shell E (trace w) "adb devices") as [o0 e0 c0|v]; [|eauto].
  destruct (c0 =? 0) eqn:Hc; [|eauto].
  apply Z.eqb_eq in Hc. subst c0. exfalso. exact (Hd o0 e0 eq_refl).
Qed.


(** X2. The diagnostic gates the command: when the executor's own
    [adb devices] does not exit 0, the requested command is never handed to
    the shell, and the result is a failure with exit code 1. *)
Theorem diagnostic_failure_skips_command (E : Env) (command : string) (w : World) :
  (forall o e, shell E (trace w) "adb devices" <> Exited o e 0) ->
  exists r w',
    execCommand E command w = (Ret r, w')
    /\ exitCode r = 1
    /\ stdout r = ""
    /\ issued (execCommand E command) w = ["adb devices"].
Proof.
  intros Hd. destruct (execCommand_diag_fails E command w Hd) as (err & Hr).
  eexists. eexists. split; [exact Hr|]. repeat split.
  unfold issued. rewrite Hr. cbn [snd withTrace trace].
  now rewrite skipn_length_app.
Qed.

Lemma diagnostic_failure_skips_command_witness :
  exists r w',
    execCommand (Sample.env Scenario.shNoDaemon Sample.noFiles) "which adb" initialWorld
    = (Ret r, w')
    /\ exitCode r = 1
    /\ stdout r = ""
    /\ issued (execCommand (Sample.env Scenario.shNoDaemon Sample.noFiles) "which adb")
              initialWorld = ["adb devices"].
Proof.
  apply (@diagnostic_failure_skips_command
           (Sample.env Scenario.shNoDaemon Sample.noFiles) "which adb" initialWorld).
  intros o e. discriminate.
Defined.

(* ------------------------------------------------------------------ *)
(** ** More on the tool locator *)

Lemma firstExisting_step (E : Env) (p : string) (rest : list string) (w : World) :
  firstExisting E (p :: rest) w
  = if 0 <? fileSize E (trace w) p
    then (Ret (Some p), andThen w (EvStat p))
    else firstExisting E rest (andThen w (EvStat p)).
Proof.
  cbn [firstExisting]. unfold bind, fileExists, bunFileSize, bind, ret.
  cbv beta iota. unfold andThen, withTrace.
  destruct (0 <? fileSize E (trace w) p); reflexivity.
Qed.

Lemma firstExisting_probes_only (E : Env) (paths : list string) (w : World) :
  exists n,
    trace (snd (firstExisting E paths w))
    = (trace w ++ map EvStat (firstn n paths))%list.
Proof.
  revert w. induction paths as [|p rest IH]; intros w.
  - exists 0%nat. simpl. now rewrite app_nil_r.
  - rewrite firstExisting_step.
    destruct (0 <? fileSize E (trace w) p).
    + exists 1%nat. reflexivity.
    + destruct (IH (andThen w (EvStat p))) as (n & Ht).
      exists (S n). rewrite Ht. cbn [andThen withTrace trace firstn map].
      now rewrite <- app_assoc.
Qed.

(** X3. The loop over the fallback list asks for file sizes in list order
    and stops at the first hit: it probes a prefix of the list, the whole
    list when nothing is found, and otherwise the path it returns is the last
    one probed. *)
Theorem firstExisting_probes_prefix (E : Env) (paths : list string) (w : World) :
  exists n,
    (n <= length paths)%nat
    /\ trace (snd (firstExisting E paths w))
       = (trace w ++ map EvStat (firstn n paths))%list
    /\ match fst (firstExisting E paths w) with
       | Ret (Some p) => (1 <= n)%nat /\ nth_error paths (n - 1) = Some p
       | Ret None => n = length paths
       | _ => False
       end.
Proof.
  revert w. induction paths as [|p rest IH]; intros w.
  - exists 0%nat. simpl. rewrite app_nil_r. auto.
  - rewrite firstExisting_step.
    destruct (0 <? fileSize E (trace w) p).
    + exists 1%nat. simpl. repeat split; auto. lia.
    + destruct (IH (andThen w (EvStat p))) as (n & Hn & Ht & Hr).
      exists (S n). cbn [length firstn map]. split; [lia|]. split.
      * rewrite Ht. cbn [andThen withTrace trace]. now rewrite <- app_assoc.
      * destruct (fst (firstExisting E rest (andThen w (EvStat p)))) as [[q|]|v|c];
          auto.
        destruct Hr as [H1 Hq]. split; [lia|].
        destruct n as [|n]; [lia|]. simpl in *.
        now rewrite Nat.sub_0_r in Hq.
Qed.

(** X4. When the diagnostic [adb devices] does not exit 0, the locator never
    runs [which adb]: it goes straight to the fallback list, whatever
    [which adb] would have answered. *)
Theorem findAdbPath_without_which (E : Env) (w : World) :
  (forall o e, shell E (trace w) "adb devices" <> Exited o e 0) ->
  fst (findAdbPath E w)
  = Ret (firstWithSize E (trace w ++ [EvShell "adb devices"; EvLog ""]) (commonPaths E))
  /\ issued (findAdbPath E) w = ["adb devices"].
Proof.
  intros Hd.
  destruct (execCommand_diag_fails E "which adb" w Hd) as (err & Hr).
  assert (Hrun : findAdbPath E w
                 = firstExisting E (commonPaths E)
                     (withTrace w (trace w ++ [EvShell "adb devices"; EvLog ""]))).
  { unfold findAdbPath. rewrite tryCatch_tame_body by auto 10 with tame.
    rewrite (@bind_run _ _ _ _ _ _ _ Hr). unfold bind at 1, consoleLog, emit.
    cbv beta iota. cbn [caught stdout exitCode withTrace adbPath debugLog trace].
    change (1 =? 0) with false. cbn [andb].
    now rewrite <- app_assoc. }
  rewrite Hrun. split.
  - now rewrite firstExisting_firstWithSize.
  - unfold issued. rewrite Hrun.
    destruct (firstExisting_probes_only E (commonPaths E)
                (withTrace w (trace w ++ [EvShell "adb devices"; EvLog ""])))
      as (n & Ht).
    rewrite Ht. cbn [withTrace trace].
    rewrite <- app_assoc, skipn_length_app. cbn [app scripts].
    f_equal. clear. induction (firstn n (commonPaths E)); simpl; auto.
Qed.

Lemma findAdbPath_without_which_witness :
  fst (findAdbPath (Sample.env Scenario.shNoDaemon Sample.onlyUsrBin) initialWorld)
  = Ret (firstWithSize (Sample.env Scenario.shNoDaemon Sample.onlyUsrBin)
           ([] ++ [EvShell "adb devices"; EvLog ""])
           (commonPaths (Sample.env Scenario.shNoDaemon Sample.onlyUsrBin)))
  /\ issued (findAdbPath (Sample.env Scenario.shNoDaemon Sample.onlyUsrBin)) initialWorld
     = ["adb devices"].
Proof.
  apply (@findAdbPath_without_which
           (Sample.env Scenario.shNoDaemon Sample.onlyUsrBin) initialWorld).
  intros o e. discriminate.
Defined.

(* ------------------------------------------------------------------ *)
(** ** More on the orchestrator *)

(** X5. When the tool locator returns [null], [main] prints its complaint to
    standard error and ends the process with status 1: that complaint is the
    last thing the process does, so no probe, prompt, pairing or listing
    follows, and [adbPath] is left [null]. *)
Theorem main_exits_when_tool_missing (E : Env) (w : World) :
  fst (findAdbPath E (afterBanner E w)) = Ret None ->
  main E w
  = (Exit 1,
     {| adbPath := VNull;
        debugLog := debugLog (snd (findAdbPath E (afterBanner E w)));
        trace := trace (snd (findAdbPath E (afterBanner E w)))
                 ++ [EvError
                       (colorText E
                          "ADB not found. Please install it and add it to your PATH."
                          "red")] |}).
Proof.
  intros Hnone.
  destruct (main_cases E w) as (located & w0 & Hf & Hmain).
  rewrite Hf in Hnone |- *. cbn [fst snd] in *.
  inversion Hnone; subst located. exact Hmain.
Qed.

Lemma main_exits_when_tool_missing_witness :
  fst (main (Sample.env Sample.shMissing Sample.noFiles) initialWorld) = Exit 1
  /\ errors (trace (snd (main (Sample.env Sample.shMissing Sample.noFiles) initialWorld)))
     = ["<red>ADB not found. Please install it and add it to your PATH.<reset>"].
Proof.
  rewrite (@main_exits_when_tool_missing
             (Sample.env Sample.shMissing Sample.noFiles) initialWorld eq_refl).
  split; reflexivity.
Defined.

(** X6. The only exception that can escape [main] is one thrown by a prompt:
    in any environment and from any state [main] returns normally, or ends
    the process with status 1, or throws the very value that one of its
    prompts threw; so with every prompt answered it returns or exits. *)
Theorem main_only_rethrows_prompt_errors (E : Env) (w : World) :
  (fst (main E w) = Ret tt
   \/ fst (main E w) = Exit 1
   \/ exists v, rethrowsPrompt E w v)
  /\ (promptsAnswered E -> fst (main E w) = Ret tt \/ fst (main E w) = Exit 1).
Proof.
  unfold rethrowsPrompt.
  destruct (main_cases E w) as (located & w0 & _ & Hmain).
  destruct (Js.truthy (ofNullable located)); rewrite Hmain.
  - match goal with |- context [mainAfterLocate E ?w1] =>
      destruct (mainAfterLocate_run E w1) as [(w2 & ->)|(v & t & query & Hv & Hthrow)]
    end.
    + split; [|intros _]; left; reflexivity.
    + split.
      * right. right. exists v. split; [exact Hthrow | eauto].
      * intros Hans. exfalso. exact (Hans t query v Hv).
  - split; [|intros _]; right; [left|]; reflexivity.
Qed.

(** X7. Over a whole run of [main], however it ends, the debug log in memory
    grows by exactly the concatenation of what was handed to [Bun.write], in
    order, and every such write goes to the log file with mode [0o777]. *)
Theorem main_log_mirrors_file_writes (E : Env) (w : World) :
  exists new,
    trace (snd (main E w)) = (trace w ++ new)%list
    /\ debugLog (snd (main E w)) = debugLog w ++ written new
    /\ Forall writesLogFile new.
Proof.
  destruct (orderly_main E w) as (new & Ht & Hd & _ & Hf). eauto.
Qed.

(** X8. Every routine below [main] (executor, locator, probe, pair, connect
    and the two listings), however it ends, leaves [adbPath] as it found it,
    never prompts and never closes the prompt, writes to no file but the log
    file, and adds to the debug log exactly what it writes there. *)
Theorem routines_keep_module_state (E : Env) :
  (forall command, orderly routineEvent true (execCommand E command))
  /\ orderly routineEvent true (findAdbPath E)
  /\ orderly routineEvent true (isDeviceConnected E)
  /\ (forall ip port code, orderly routineEvent true (pairDevice E ip port code))
  /\ (forall ip port, orderly routineEvent true (connectDevice E ip port))
  /\ orderly routineEvent true (getInstalledApps E)
  /\ orderly routineEvent true (getStorageInfo E).
Proof.
  repeat split; intros; auto with orderly.
Qed.

(** X9. [main] assigns [adbPath] once, to what the locator returned, and
    nothing later in the run changes it. *)
Theorem main_sets_adbPath_once (E : Env) (w : World) :
  exists located,
    fst (findAdbPath E (afterBanner E w)) = Ret located
    /\ adbPath (snd (main E w)) = ofNullable located.
Proof.
  destruct (main_cases E w) as (located & w0 & Hf & Hmain).
  exists located. rewrite Hf. split; [reflexivity|].
  destruct (Js.truthy (ofNullable located)); rewrite Hmain; [|reflexivity].
  match goal with |- context [mainAfterLocate E ?w1] =>
    destruct (orderly_mainAfterLocate E true w1) as (new & _ & _ & Hp & _)
  end.
  now rewrite Hp.
Qed.

(* ------------------------------------------------------------------ *)
(** ** Pairing and connecting, outcome by outcome *)

Lemma addToDebugLog_scripts (E : Env) (message : string) (w : World) :
  scripts (trace (snd (addToDebugLog E message w))) = scripts (trace w).
Proof.
  rewrite addToDebugLog_run. cbv zeta. cbn [snd trace].
  rewrite scripts_app. simpl. apply app_nil_r.
Qed.

(** The pair routine once the executor has answered [r]. *)
Lemma pairDevice_unfold (E : Env) (w : World) (ipAddress port pairCode : string)
    (r : CommandResult) (w3 : World) :
  execCommand E (pairCommand ipAddress port pairCode)
              (beforePairCommand E ipAddress port pairCode w) = (Ret r, w3) ->
  pairDevice E ipAddress port pairCode w
  = if exitCode r =? 0 then
      connectDevice E ipAddress port
        (andThen (afterPairLogs E r w3)
                 (EvLog (colorText E "Device paired successfully" "green")))
    else
      (Ret tt,
       andThen (afterPairLogs E r w3)
               (EvError (colorText E ("Pairing failed: " ++ Js.toString (stderr r)) "red"))).
Proof.
  unfold beforePairCommand, afterPairLogs. rewrite !addToDebugLog_run.
  cbv zeta. cbn [snd]. intros Hr.
  unfold pairDevice.
  rewrite tryCatch_tame_body by (cbv zeta; auto 20 with tame).
  cbv zeta. unfold bind at 1. rewrite addToDebugLog_run. cbv beta iota zeta.
  unfold bind at 1. rewrite addToDebugLog_run. cbv beta iota zeta.
  rewrite (@bind_run _ _ _ _ _ _ _ Hr).
  do 3 (unfold bind at 1; rewrite addToDebugLog_run; cbv beta iota zeta).
  destruct (exitCode r =? 0).
  - unfold bind at 1, consoleLog, emit. cbv beta iota. reflexivity.
  - reflexivity.
Qed.

(** The connect routine once the executor has answered [r]. *)
Lemma connectDevice_unfold (E : Env) (w : World) (ipAddress port : string)
    (r : CommandResult) (w3 : World) :
  execCommand E (connectCommand ipAddress port)
              (beforeConnectCommand E ipAddress port w) = (Ret r, w3) ->
  connectDevice E ipAddress port w
  = if exitCode r =? 0 then
      (getInstalledApps E ;; getStorageInfo E)
        (andThen (afterConnectLogs E r w3)
                 (EvLog (colorText E "Device connected successfully" "green")))
    else
      (Ret tt,
       andThen (afterConnectLogs E r w3)
               (EvError (colorText E ("Connection failed: " ++ Js.toString (stderr r)) "red"))).
Proof.
  unfold beforeConnectCommand, afterConnectLogs. rewrite !addToDebugLog_run.
  cbv zeta. cbn [snd]. intros Hr.
  unfold connectDevice.
  rewrite tryCatch_tame_body by (cbv zeta; auto 20 with tame).
  cbv zeta. unfold bind at 1. rewrite addToDebugLog_run. cbv beta iota zeta.
  rewrite (@bind_run _ _ _ _ _ _ _ Hr).
  do 3 (unfold bind at 1; rewrite addToDebugLog_run; cbv beta iota zeta).
  destruct (exitCode r =? 0).
  - unfold bind at 1, consoleLog, emit. cbv beta iota. reflexivity.
  - reflexivity.
Qed.

Lemma afterPairLogs_scripts (E : Env) (r : CommandResult) (w : World) :
  scripts (trace (afterPairLogs E r w)) = scripts (trace w).
Proof. unfold afterPairLogs. now rewrite !addToDebugLog_scripts. Qed.

Lemma afterConnectLogs_scripts (E : Env) (r : CommandResult) (w : World) :
  scripts (trace (afterConnectLogs E r w)) = scripts (trace w).
Proof. unfold afterConnectLogs. now rewrite !addToDebugLog_scripts. Qed.

(** X10. The pair routine logs the three fields of the executor's answer and
    then, on exit code 0, announces success and continues as the connect
    routine with the same address and port; on any other exit code it prints
    ["Pairing failed: ..."] to standard error and returns, having handed
    nothing more to the shell. *)
Theorem pairDevice_outcomes (E : Env) (w : World) (ipAddress port pairCode : string)
    (r : CommandResult) (w3 : World) :
  execCommand E ("adb pair " ++ ipAddress ++ ":" ++ port ++ " " ++ pairCode)
              (beforePairCommand E ipAddress port pairCode w) = (Ret r, w3) ->
  scripts (trace (afterPairLogs E r w3)) = scripts (trace w3)
  /\ (exitCode r = 0 ->
      pairDevice E ipAddress port pairCode w
      = connectDevice E ipAddress port
          (andThen (afterPairLogs E r w3)
                   (EvLog (colorText E "Device paired successfully" "green"))))
  /\ (exitCode r <> 0 ->
      pairDevice E ipAddress port pairCode w
      = (Ret tt,
         andThen (afterPairLogs E r w3)
                 (EvError (colorText E ("Pairing failed: " ++ Js.toString (stderr r))
                             "red")))).
Proof.
  intros Hr. split; [apply afterPairLogs_scripts|].
  pose proof (pairDevice_unfold E w ipAddress port pairCode Hr) as Hp.
  split; intros Hc.
  - now rewrite Hc in Hp.
  - apply Z.eqb_neq in Hc. now rewrite Hc in Hp.
Qed.

Lemma pairDevice_outcomes_witness :
  let E := Sample.env Scenario.shPairs Sample.noFiles in
  let run := execCommand E "adb pair 192.168.1.20:5555 123456"
               (beforePairCommand E "192.168.1.20" "5555" "123456" Sample.located) in
  exists r w3,
    run = (Ret r, w3)
    /\ exitCode r = 0
    /\ pairDevice E "192.168.1.20" "5555" "123456" Sample.located
       = connectDevice E "192.168.1.20" "5555"
           (andThen (afterPairLogs E r w3)
                    (EvLog (colorText E "Device paired successfully" "green"))).
Proof.
  cbv zeta. eexists. eexists. split; [reflexivity|]. split; [reflexivity|].
  refine (proj1 (proj2 (@pairDevice_outcomes
                          (Sample.env Scenario.shPairs Sample.noFiles) Sample.located
                          "192.168.1.20" "5555" "123456" _ _ eq_refl)) eq_refl).
Defined.

(** X11. The connect routine logs the three fields of the executor's answer
    and then, on exit code 0, announces success and runs the installed-apps
    routine followed by the storage routine; on any other exit code it prints
    ["Connection failed: ..."] to standard error and returns without running
    either. *)
Theorem connectDevice_outcomes (E : Env) (w : World) (ipAddress port : string)
    (r : CommandResult) (w3 : World) :
  execCommand E ("adb connect " ++ ipAddress ++ ":" ++ port)
              (beforeConnectCommand E ipAddress port w) = (Ret r, w3) ->
  scripts (trace (afterConnectLogs E r w3)) = scripts (trace w3)
  /\ (exitCode r = 0 ->
      connectDevice E ipAddress port w
      = (getInstalledApps E ;; getStorageInfo E)
          (andThen (afterConnectLogs E r w3)
                   (EvLog (colorText E "Device connected successfully" "green"))))
  /\ (exitCode r <> 0 ->
      connectDevice E ipAddress port w
      = (Ret tt,
         andThen (afterConnectLogs E r w3)
                 (EvError (colorText E ("Connection failed: " ++ Js.toString (stderr r))
                             "red")))).
Proof.
  intros Hr. split; [apply afterConnectLogs_scripts|].
  pose proof (connectDevice_unfold E w ipAddress port Hr) as Hp.
  split; intros Hc.
  - now rewrite Hc in Hp.
  - apply Z.eqb_neq in Hc. now rewrite Hc in Hp.
Qed.

Lemma connectDevice_outcomes_witness :
  let E := Sample.env Sample.shNoDevice Sample.noFiles in
  let run := execCommand E "adb connect 192.168.1.20:5555"
               (beforeConnectCommand E "192.168.1.20" "5555" Sample.located) in
  exists r w3,
    run = (Ret r, w3)
    /\ exitCode r <> 0
    /\ connectDevice E "192.168.1.20" "5555" Sample.located
       = (Ret tt,
          andThen (afterConnectLogs E r w3)
                  (EvError (colorText E ("Connection failed: " ++ Js.toString (stderr r))
                              "red"))).
Proof.
  cbv zeta. eexists. eexists. split; [reflexivity|]. split; [discriminate|].
  refine (proj2 (proj2 (@connectDevice_outcomes
                          (Sample.env Sample.shNoDevice Sample.noFiles) Sample.located
                          "192.168.1.20" "5555" _ _ eq_refl)) _).
  discriminate.
Defined.

(* ------------------------------------------------------------------ *)
(** ** The two flows of the orchestrator *)

(** What the connect routine does first: it logs its command. *)
Lemma connectDevice_announces (E : Env) (ipAddress port : string) (w : World) :
  exists stamp rest,
    trace (snd (connectDevice E ipAddress port w))
    = (trace w
       ++ [EvNow;
           EvWrite logFile
             (logLine stamp ("Connecting device with command: "
                             ++ connectCommand ipAddress port)) 511;
           EvLog ("Connecting device with command: " ++ connectCommand ipAddress port)]
       ++ rest)%list.
Proof.
  unfold connectDevice.
  rewrite tryCatch_tame_body by (cbv zeta; auto 20 with tame).
  cbv zeta. unfold bind at 1. rewrite addToDebugLog_run. cbv beta iota zeta.
  match goal with |- context [snd (?k ?w1)] =>
    assert (Hk : tame k) by auto 20 with tame;
    destruct (Hk w1) as (u & w2 & rest & Hrun & Ht)
  end.
  rewrite Hrun. cbn [snd]. rewrite Ht. cbn [trace].
  eexists. exists rest. now rewrite <- app_assoc.
Qed.

(** What the pair routine does first: it logs its attempt and its command. *)
Lemma pairDevice_announces (E : Env) (ipAddress port pairCode : string) (w : World) :
  exists pre rest,
    trace (snd (pairDevice E ipAddress port pairCode w))
    = (trace w ++ pre
       ++ EvLog ("Command: " ++ pairCommand ipAddress port pairCode) :: rest)%list.
Proof.
  unfold pairDevice.
  rewrite tryCatch_tame_body by (cbv zeta; auto 20 with tame).
  cbv zeta. unfold bind at 1. rewrite addToDebugLog_run. cbv beta iota zeta.
  unfold bind at 1. rewrite addToDebugLog_run. cbv beta iota zeta.
  match goal with |- context [snd (?k ?w1)] =>
    assert (Hk : tame k) by auto 20 with tame;
    destruct (Hk w1) as (u & w2 & rest & Hrun & Ht)
  end.
  rewrite Hrun. cbn [snd]. rewrite Ht. cbn [trace].
  eexists (_ :: _ :: _ :: _ :: _ :: nil). exists rest.
  rewrite <- !app_assoc. reflexivity.
Qed.

(** X12. In the not-connected flow, when the pair command exits 0, the
    connect routine runs twice: once called by the pair routine and once more
    by [main]; its announcement of the connect command appears twice in the
    trace of the run. *)
Theorem successful_pairing_connects_twice (E : Env) (w wa wq : World)
    (ipAddress port pairCode : string) (r : CommandResult) (w3 : World) :
  isDeviceConnected E w = (Ret false, wa) ->
  askConnection E wa = (Ret (ipAddress, port, pairCode), wq) ->
  execCommand E ("adb pair " ++ ipAddress ++ ":" ++ port ++ " " ++ pairCode)
              (beforePairCommand E ipAddress port pairCode wq) = (Ret r, w3) ->
  exitCode r = 0 ->
  let announcement :=
    EvLog ("Connecting device with command: adb connect " ++ ipAddress ++ ":" ++ port) in
  exists t1 t2 t3,
    trace (snd (mainAfterLocate E w))
    = (t1 ++ announcement :: t2 ++ announcement :: t3)%list.
Proof.
  intros Hc Hask Hr Hcode. cbv zeta.
  rewrite (@connect_runs_after_pair E w wa wq ipAddress port pairCode Hc Hask).
  cbv zeta. cbn [snd withTrace trace].
  pose proof (pairDevice_unfold E wq ipAddress port pairCode Hr) as Hp.
  rewrite Hcode in Hp. change (0 =? 0) with true in Hp. cbv iota in Hp.
  rewrite Hp.
  match goal with
  | |- context [connectDevice E ipAddress port
                  (snd (connectDevice E ipAddress port ?w5))] =>
      destruct (connectDevice_announces E ipAddress port w5) as (s1 & rest1 & H1);
      destruct (connectDevice_announces E ipAddress port
                  (snd (connectDevice E ipAddress port w5))) as (s2 & rest2 & H2);
      rewrite H2, H1;
      match goal with
      | |- exists _ _ _, (_ ++ ?closing)%list = _ =>
          exists (trace w5
                  ++ [EvNow;
                      EvWrite logFile
                        (logLine s1 ("Connecting device with command: "
                                     ++ connectCommand ipAddress port)) 511])%list,
                 (rest1
                  ++ [EvNow;
                      EvWrite logFile
                        (logLine s2 ("Connecting device with command: "
                                     ++ connectCommand ipAddress port)) 511])%list,
                 (rest2 ++ closing)%list
      end
  end.
  rewrite <- !app_assoc. reflexivity.
Qed.

Lemma successful_pairing_connects_twice_witness :
  let announcement :=
    EvLog ("Connecting device with command: adb connect " ++ "192.168.1.20" ++ ":" ++ "5555") in
  exists t1 t2 t3,
    trace (snd (mainAfterLocate (Sample.env Scenario.shPairs Sample.noFiles) Sample.located))
    = (t1 ++ announcement :: t2 ++ announcement :: t3)%list.
Proof.
  eapply (@successful_pairing_connects_twice
            (Sample.env Scenario.shPairs Sample.noFiles) Sample.located).
  - vm_compute. reflexivity.
  - vm_compute. reflexivity.
  - vm_compute. reflexivity.
  - reflexivity.
Defined.

Lemma closingEvents_quiet (E : Env) (log : string) :
  questions (closingEvents E log) = [] /\ scripts (closingEvents E log) = [].
Proof. split; reflexivity. Qed.

(** X13. In the not-connected flow, when its three prompts are answered,
    [main] asks exactly three questions, in the order address, port, pairing
    code, before anything else happens; it never prompts again, and the pair
    command it then logs is built from the three answers. *)
Theorem not_connected_flow_prompts (E : Env) (w wa : World)
    (ipAddress port pairCode : string) :
  isDeviceConnected E w = (Ret false, wa) ->
  let t0 := (trace wa
             ++ [EvLog (colorText E "No device connected. Let's connect one." "yellow")])%list in
  let t1 := (t0 ++ [EvQuestion "Enter IP Address: "])%list in
  let t2 := (t1 ++ [EvQuestion "Enter Port: "])%list in
  answer E t0 "Enter IP Address: " = Answered ipAddress ->
  answer E t1 "Enter Port: " = Answered port ->
  answer E t2 "Enter Pair Code: " = Answered pairCode ->
  exists rest,
    fst (mainAfterLocate E w) = Ret tt
    /\ trace (snd (mainAfterLocate E w))
       = (t2 ++ EvQuestion "Enter Pair Code: " :: rest)%list
    /\ questions rest = []
    /\ In ("Command: adb pair " ++ ipAddress ++ ":" ++ port ++ " " ++ pairCode)
          (logged rest).
Proof.
  intros Hc t0 t1 t2 H1 H2 H3.
  assert (Hask : exists wq,
            askConnection E wa = (Ret (ipAddress, port, pairCode), wq)
            /\ trace wq = (t2 ++ [EvQuestion "Enter Pair Code: "])%list).
  { unfold askConnection, bind, consoleLog, question, emit, ret.
    cbv beta iota zeta. cbn [adbPath debugLog trace].
    fold t0. rewrite H1. cbv beta iota. cbn [adbPath debugLog trace].
    fold t1. rewrite H2. cbv beta iota. cbn [adbPath debugLog trace].
    fold t2. rewrite H3. cbv beta iota.
    eexists. split; reflexivity. }
  destruct Hask as (wq & Hask & Hwq).
  rewrite (@connect_runs_after_pair E w wa wq ipAddress port pairCode Hc Hask).
  cbv zeta. cbn [snd withTrace adbPath debugLog trace].
  destruct (pairDevice_announces E ipAddress port pairCode wq) as (pre & rest1 & Hp1).
  destruct (@orderly_pairDevice E routineEvent true (fun e H => H)
              ipAddress port pairCode wq) as (n1 & Hn1 & _ & _ & Hf1).
  destruct (@orderly_connectDevice E routineEvent true (fun e H => H)
              ipAddress port (snd (pairDevice E ipAddress port pairCode wq)))
    as (n2 & Hn2 & _ & _ & Hf2).
  exists (n1 ++ n2
          ++ closingEvents E
               (debugLog (snd (connectDevice E ipAddress port
                                 (snd (pairDevice E ipAddress port pairCode wq))))))%list.
  split; [reflexivity|]. split; [|split].
  - rewrite Hn2, Hn1, Hwq. rewrite <- !app_assoc. reflexivity.
  - rewrite !questions_app.
    rewrite (routineEvent_no_questions Hf1), (routineEvent_no_questions Hf2).
    reflexivity.
  - rewrite Hn1 in Hp1. apply app_inv_head in Hp1. subst n1.
    rewrite !logged_app. apply in_or_app. left. apply in_or_app. right.
    left. reflexivity.
Qed.

Lemma not_connected_flow_prompts_witness :
  exists rest,
    questions (trace (snd (mainAfterLocate (Sample.env Sample.shNoDevice Sample.noFiles)
                             Sample.located)))
    = (["Enter IP Address: "; "Enter Port: "; "Enter Pair Code: "] ++ questions rest)%list
    /\ questions rest = []
    /\ In "Command: adb pair 192.168.1.20:5555 123456" (logged rest).
Proof.
  destruct (@not_connected_flow_prompts
              (Sample.env Sample.shNoDevice Sample.noFiles) Sample.located
              (snd (isDeviceConnected (Sample.env Sample.shNoDevice Sample.noFiles)
                      Sample.located))
              "192.168.1.20" "5555" "123456" eq_refl eq_refl eq_refl eq_refl)
    as (rest & _ & Ht & Hq & Hin).
  exists rest. rewrite Ht.
  split; [|split; [exact Hq | exact Hin]].
  rewrite !questions_app. reflexivity.
Defined.

(** X18. In the not-connected flow, a prompt that throws ends the run at
    once: [main] throws that value from the state the prompt left, so no
    later prompt is shown, nothing is handed to the shell, nothing is added
    to the debug log, the log is not printed and the prompt is not closed.
    The questions asked are the first one, two or three prompts. *)
Theorem failed_prompt_escapes_main (E : Env) (w wa wq : World) (v : JsValue) :
  isDeviceConnected E w = (Ret false, wa) ->
  askConnection E wa = (Throw v, wq) ->
  mainAfterLocate E w = (Throw v, wq)
  /\ (exists t query, answer E t query = PromptFailed v)
  /\ adbPath wq = adbPath wa
  /\ debugLog wq = debugLog wa
  /\ exists n,
       (1 <= n <= 3)%nat
       /\ trace wq
          = (trace wa
             ++ EvLog (colorText E "No device connected. Let's connect one." "yellow")
                :: map EvQuestion (firstn n prompts))%list.
Proof.
  intros Hc Hask. split.
  { rewrite (mainAfterLocate_asks E w Hc), Hask. reflexivity. }
  revert Hask.
  unfold askConnection, bind, consoleLog, question, emit, ret.
  cbv beta iota zeta. cbn [adbPath debugLog trace].
  destruct (answer E _ "Enter IP Address: ") as [ip|v1] eqn:H1.
  - destruct (answer E _ "Enter Port: ") as [port|v2] eqn:H2.
    + destruct (answer E _ "Enter Pair Code: ") as [code|v3] eqn:H3.
      * discriminate.
      * intros H; inversion H; subst. cbn [adbPath debugLog trace].
        split; [eauto|]. repeat split. exists 3%nat. split; [lia|].
        rewrite <- !app_assoc. reflexivity.
    + intros H; inversion H; subst. cbn [adbPath debugLog trace].
      split; [eauto|]. repeat split. exists 2%nat. split; [lia|].
      rewrite <- !app_assoc. reflexivity.
  - intros H; inversion H; subst. cbn [adbPath debugLog trace].
    split; [eauto|]. repeat split. exists 1%nat. split; [lia|].
    rewrite <- !app_assoc. reflexivity.
Qed.

Lemma failed_prompt_escapes_main_witness :
  let E := Scenario.closedStdin (Sample.env Sample.shNoDevice Sample.noFiles) in
  fst (mainAfterLocate E Sample.located) = Throw (VError "Error" "readline was closed")
  /\ questions (trace (snd (mainAfterLocate E Sample.located))) = ["Enter IP Address: "]
  /\ scripts (trace (snd (mainAfterLocate E Sample.located)))
     = ["adb devices"; rawScript "adb devices"].
Proof.
  cbv zeta.
  destruct (@failed_prompt_escapes_main
              (Scenario.closedStdin (Sample.env Sample.shNoDevice Sample.noFiles))
              Sample.located
              (snd (isDeviceConnected
                      (Scenario.closedStdin (Sample.env Sample.shNoDevice Sample.noFiles))
                      Sample.located))
              (snd (askConnection
                      (Scenario.closedStdin (Sample.env Sample.shNoDevice Sample.noFiles))
                      (snd (isDeviceConnected
                              (Scenario.closedStdin
                                 (Sample.env Sample.shNoDevice Sample.noFiles))
                              Sample.located))))
              (VError "Error" "readline was closed") eq_refl eq_refl)
    as (Hrun & _).
  rewrite Hrun. cbn [fst snd]. repeat split; vm_compute; reflexivity.
Defined.

(** An info routine: one call of the executor, then one or two lines on the
    console; the module state stays as it was. *)
Lemma getInstalledApps_world (E : Env) (w : World) :
  exists new,
    getInstalledApps E w = (Ret tt, withTrace w (trace w ++ new))
    /\ scripts new
       = execScripts E (trace w) (Js.toString (adbPath w) ++ " shell pm list packages")
    /\ questions new = [].
Proof.
  destruct (execCommand_scripts E (Js.toString (adbPath w) ++ " shell pm list packages") w)
    as (r & new & Hr & Hs).
  destruct (@orderly_execCommand E routineEvent true (fun e H => H)
              (Js.toString (adbPath w) ++ " shell pm list packages") w)
    as (n & Hn & _ & _ & Hf).
  rewrite Hr in Hn. cbn [snd withTrace trace] in Hn.
  apply app_inv_head in Hn. subst n.
  unfold getInstalledApps. rewrite tryCatch_tame_body by auto with tame.
  unfold installedAppsTry, bind at 1, getAdbPath. cbv beta iota.
  rewrite (@bind_run _ _ _ _ _ _ _ Hr).
  destruct (exitCode r =? 0);
    unfold bind, consoleLog, consoleError, emit, withTrace; cbv beta iota;
    cbn [adbPath debugLog trace]; rewrite <- ?app_assoc;
    eexists; (split; [reflexivity|]);
    rewrite scripts_app, questions_app, Hs, (routineEvent_no_questions Hf);
    cbn [scripts questions app]; rewrite app_nil_r; auto.
Qed.

Lemma getStorageInfo_world (E : Env) (w : World) :
  exists new,
    getStorageInfo E w = (Ret tt, withTrace w (trace w ++ new))
    /\ scripts new = execScripts E (trace w) (Js.toString (adbPath w) ++ " shell df")
    /\ questions new = [].
Proof.
  destruct (execCommand_scripts E (Js.toString (adbPath w) ++ " shell df") w)
    as (r & new & Hr & Hs).
  destruct (@orderly_execCommand E routineEvent true (fun e H => H)
              (Js.toString (adbPath w) ++ " shell df") w)
    as (n & Hn & _ & _ & Hf).
  rewrite Hr in Hn. cbn [snd withTrace trace] in Hn.
  apply app_inv_head in Hn. subst n.
  unfold getStorageInfo. rewrite tryCatch_tame_body by auto with tame.
  unfold storageInfoTry, bind at 1, getAdbPath. cbv beta iota.
  rewrite (@bind_run _ _ _ _ _ _ _ Hr).
  destruct (exitCode r =? 0);
    unfold bind, consoleLog, consoleError, emit, withTrace; cbv beta iota;
    cbn [adbPath debugLog trace]; rewrite <- ?app_assoc;
    eexists; (split; [reflexivity|]);
    rewrite scripts_app, questions_app, Hs, (routineEvent_no_questions Hf);
    cbn [scripts questions app]; rewrite app_nil_r; auto.
Qed.

(** X14. In the already-connected flow [main] announces the device, runs the
    installed-apps routine and then the storage routine, and finishes: it
    asks no question, hands the shell nothing but the package-list and
    disk-free commands (each after the executor's diagnostic), and adds
    nothing to the debug log. *)
Theorem connected_flow_lists_apps_and_storage (E : Env) (w wa : World) :
  isDeviceConnected E w = (Ret true, wa) ->
  exists new t1 t2,
    mainAfterLocate E w
    = (Ret tt,
       withTrace wa
         (trace wa
          ++ EvLog (colorText E "A device is already connected." "green") :: new
          ++ closingEvents E (debugLog wa)))
    /\ questions new = []
    /\ scripts new
       = (execScripts E t1 (Js.toString (adbPath w) ++ " shell pm list packages")
          ++ execScripts E t2 (Js.toString (adbPath w) ++ " shell df"))%list.
Proof.
  intros Hc.
  destruct (@orderly_isDeviceConnected E routineEvent true (fun e H => H) w)
    as (n0 & _ & _ & Hpath & _).
  rewrite Hc in Hpath. cbn [snd] in Hpath. specialize (Hpath eq_refl).
  unfold mainAfterLocate. rewrite (@bind_run _ _ _ _ _ _ _ Hc).
  unfold bind at 1 2 3, consoleLog at 1, emit at 1. cbv beta iota.
  match goal with |- context [getInstalledApps E ?w1] =>
    destruct (getInstalledApps_world E w1) as (n1 & H1 & Hs1 & Hq1)
  end.
  rewrite H1. cbv beta iota.
  match goal with |- context [getStorageInfo E ?w2] =>
    destruct (getStorageInfo_world E w2) as (n2 & H2 & Hs2 & Hq2)
  end.
  rewrite H2. cbv beta iota.
  cbn [adbPath withTrace] in Hs1, Hs2. rewrite Hpath in Hs1, Hs2.
  exists (n1 ++ n2)%list. eexists. eexists. split; [|split].
  - unfold bind, consoleLog, getDebugLog, rlClose, emit, withTrace, closingEvents.
    cbv beta iota. cbn [adbPath debugLog trace].
    rewrite <- !app_assoc. reflexivity.
  - now rewrite questions_app, Hq1, Hq2.
  - rewrite scripts_app, Hs1, Hs2. reflexivity.
Qed.

Lemma connected_flow_lists_apps_and_storage_witness :
  exists new t1 t2,
    mainAfterLocate (Sample.env (Scenario.shListed "device") Sample.noFiles) Sample.located
    = (Ret tt,
       withTrace (snd (isDeviceConnected (Sample.env (Scenario.shListed "device") Sample.noFiles)
                         Sample.located))
         (trace (snd (isDeviceConnected (Sample.env (Scenario.shListed "device") Sample.noFiles)
                        Sample.located))
          ++ EvLog "<green>A device is already connected.<reset>" :: new
          ++ closingEvents (Sample.env (Scenario.shListed "device") Sample.noFiles)
               (debugLog (snd (isDeviceConnected
                                 (Sample.env (Scenario.shListed "device") Sample.noFiles)
                                 Sample.located)))))
    /\ questions new = []
    /\ scripts new
       = (execScripts (Sample.env (Scenario.shListed "device") Sample.noFiles) t1
            ("/usr/bin/adb" ++ " shell pm list packages")
          ++ execScripts (Sample.env (Scenario.shListed "device") Sample.noFiles) t2
               ("/usr/bin/adb" ++ " shell df"))%list.
Proof.
  apply (@connected_flow_lists_apps_and_storage
           (Sample.env (Scenario.shListed "device") Sample.noFiles) Sample.located).
  vm_compute. reflexivity.
Defined.

(* ------------------------------------------------------------------ *)
(** ** More on the connection prober *)

(** X15. The prober answers [true] only when both the executor's diagnostic
    and the device-list command exit 0 and the list has two or more
    non-blank lines; in particular it answers [false] whenever the shell
    fails or throws. *)
Theorem isDeviceConnected_true_iff (E : Env) (w : World) :
  fst (isDeviceConnected E w) = Ret true
  <-> exists o0 e0 out err,
        shell E (trace w) "adb devices" = Exited o0 e0 0
        /\ shell E (trace w ++ [EvShell "adb devices"; EvLog (o0 ++ " which adb")])
                 (rawScript "adb devices") = Exited out err 0
        /\ (2 <= countNonBlankLines out)%nat.
Proof.
  destruct (isDeviceConnected_run E w) as (r & w1 & w' & Hr & Hrun).
  rewrite Hrun. cbn [fst]. rewrite execCommand_cases in Hr.
  split.
  - intros Ht.
    assert (Hb : ((exitCode r =? 0)
                  && (2 <=? countNonBlankLines (stdout r))%nat)%bool = true)
      by congruence.
    apply andb_prop in Hb. destruct Hb as [Hc Hn].
    apply Nat.leb_le in Hn.
    destruct (shell E (trace w) "adb devices") as [o0 e0 c0|v] eqn:H0.
    + destruct (c0 =? 0) eqn:Hc0; cbv zeta in Hr.
      * apply Z.eqb_eq in Hc0. subst c0.
        destruct (shell E _ (rawScript "adb devices")) as [out err code|v] eqn:H1.
        -- destruct (code =? 0) eqn:Hc1; inversion Hr; subst r; cbn in Hc, Hn.
           ++ apply Z.eqb_eq in Hc1. subst code. exists o0, e0, out, err. auto.
           ++ discriminate.
        -- inversion Hr; subst r. cbn in Hc. discriminate.
      * inversion Hr; subst r. cbn in Hc. discriminate.
    + inversion Hr; subst r. cbn in Hc. discriminate.
  - intros (o0 & e0 & out & err & H0 & H1 & Hn).
    rewrite H0 in Hr. change (0 =? 0) with true in Hr. cbv beta iota zeta in Hr.
    rewrite H1 in Hr. change (0 =? 0) with true in Hr. cbv beta iota in Hr.
    inversion Hr; subst r. cbn [exitCode stdout].
    apply Nat.leb_le in Hn. now rewrite Hn.
Qed.

Lemma countFrom_single_line (s rest : string) (seen : bool) :
  singleLine s = true ->
  countFrom seen (s ++ String LF rest)
  = ((if (seen || negb (allWhite s))%bool then 1 else 0) + countFrom false rest)%nat.
Proof.
  revert seen. induction s as [|c s IH]; intros seen Hs.
  - cbn [append countFrom allWhite]. change (Ascii.eqb LF LF) with true.
    cbv iota. now rewrite orb_false_r.
  - cbn [singleLine] in Hs. apply andb_prop in Hs. destruct Hs as [Hc Hs].
    apply negb_true_iff in Hc.
    cbn [append countFrom allWhite]. rewrite Hc, IH by assumption.
    destruct seen, (isWhiteSpace c), (allWhite s); reflexivity.
Qed.

(** X16. The prober does not read the status of a listed device: whenever the
    device list is a non-blank first line followed by one more non-blank
    line and both commands exit 0, the answer is [true], whatever that second
    line says (["device"], ["offline"], ["unauthorized"], ...). *)
Theorem isDeviceConnected_ignores_status (E : Env) (w : World)
    (o0 e0 first second err : string) :
  shell E (trace w) "adb devices" = Exited o0 e0 0 ->
  shell E (trace w ++ [EvShell "adb devices"; EvLog (o0 ++ " which adb")])
        (rawScript "adb devices") = Exited (first ++ nl ++ second ++ nl) err 0 ->
  singleLine first = true -> allWhite first = false ->
  singleLine second = true -> allWhite second = false ->
  fst (isDeviceConnected E w) = Ret true.
Proof.
  intros H0 H1 Hf1 Hf2 Hs1 Hs2.
  destruct (isDeviceConnected_run E w) as (r & w1 & w' & Hr & Hrun).
  rewrite Hrun. cbn [fst]. rewrite execCommand_cases, H0 in Hr.
  change (0 =? 0) with true in Hr. cbv beta iota zeta in Hr.
  rewrite H1 in Hr. change (0 =? 0) with true in Hr. cbv beta iota in Hr.
  inversion Hr; subst r. cbn [exitCode stdout].
  unfold countNonBlankLines.
  change (first ++ nl ++ second ++ nl)
    with (first ++ String LF (second ++ String LF "")).
  unfold nl. rewrite !countFrom_single_line by assumption.
  rewrite Hf2, Hs2. reflexivity.
Qed.

Lemma isDeviceConnected_ignores_status_witness :
  fst (isDeviceConnected (Sample.env (Scenario.shListed "unauthorized") Sample.noFiles)
         initialWorld) = Ret true.
Proof.
  apply (@isDeviceConnected_ignores_status
           (Sample.env (Scenario.shListed "unauthorized") Sample.noFiles) initialWorld
           ("List of devices attached" ++ nl ++ "emulator-5554 unauthorized" ++ nl) ""
           "List of devices attached" "emulator-5554 unauthorized" "");
    reflexivity.
Defined.

(* ------------------------------------------------------------------ *)
(** ** More on the info routines *)

Lemma string_app_cancel (a b : string) : a ++ b = a -> b = "".
Proof.
  induction a as [|c a IH]; simpl; intros H; [exact H|].
  injection H as H. auto.
Qed.

(** X17. The installed-apps and storage routines always return normally and
    never record anything: whether their command succeeds or fails, the debug
    log and [adbPath] are as before and nothing is handed to [Bun.write]. *)
Theorem info_routines_never_log (E : Env) (w : World) :
  (exists new,
     getInstalledApps E w = (Ret tt, withTrace w (trace w ++ new))
     /\ written new = "")
  /\ (exists new,
        getStorageInfo E w = (Ret tt, withTrace w (trace w ++ new))
        /\ written new = "").
Proof.
  split.
  - destruct (getInstalledApps_world E w) as (new & Hrun & _).
    destruct (@orderly_getInstalledApps E routineEvent true (fun e H => H) w)
      as (n & Hn & Hd & _).
    rewrite Hrun in Hn, Hd. cbn [snd withTrace trace debugLog] in Hn, Hd.
    apply app_inv_head in Hn. subst n.
    exists new. split; [exact Hrun|].
    symmetry in Hd. exact (@string_app_cancel _ _ Hd).
  - destruct (getStorageInfo_world E w) as (new & Hrun & _).
    destruct (@orderly_getStorageInfo E routineEvent true (fun e H => H) w)
      as (n & Hn & Hd & _).
    rewrite Hrun in Hn, Hd. cbn [snd withTrace trace debugLog] in Hn, Hd.
    apply app_inv_head in Hn. subst n.
    exists new. split; [exact Hrun|].
    symmetry in Hd. exact (@string_app_cancel _ _ Hd).
Qed.
